(** * The Red Hat provisioner of libmachine (libmachine/provision/redhat.go)

    A shallow embedding of the provisioner for RHEL, CentOS and Fedora
    hosts, and the properties of it that the design document states.

    Go strings are byte strings ([string]); a Go function returning
    [(T, error)] returns a [result T]; methods on [*RedHatProvisioner] run in
    the monad [M], which threads the provisioner and the remote end of the
    SSH connection and keeps every mutation made before an error, as Go does. *)

From Stdlib Require Import String Ascii List ZArith Lia Bool Arith DecimalString.
Import ListNotations.
Local Open Scope list_scope.
Local Open Scope string_scope.

Set Implicit Arguments.

(** ** Characters and strings *)

Definition dquote : ascii := Eval cbv in ascii_of_nat 34.
Definition newline : ascii := Eval cbv in ascii_of_nat 10.
Definition percent : ascii := "%"%char.

Definition dq : string := String dquote EmptyString.
Definition nl : string := String newline EmptyString.

Definition chars (s : string) : list ascii := list_ascii_of_string s.




Definition has_newline (s : string) : bool :=
  existsb (Ascii.eqb newline) (chars s).

(** ** Errors and results *)

(** Go [error] values.  [ErrUnknownYumOsRelease] is the package variable of
    redhat.go; the others come from the collaborators. *)
Inductive error : Type :=
| ErrUnknownYumOsRelease
| ErrReadinessTimeout
| ErrOther (msg : string).

Inductive result (A : Type) : Type :=
| Ok (a : A)
| Err (e : error).
Arguments Ok {A} a.
Arguments Err {A} e.

Definition is_ok {A} (r : result A) : bool :=
  match r with Ok _ => true | Err _ => false end.

(** ** [strconv.Quote] and [fmt.Sprintf] on strings *)

Definition hex_digit (n : nat) : ascii :=
  nth n (chars "0123456789abcdef") "0"%char.

Definition hex2 (n : nat) : string :=
  String (hex_digit (n / 16)) (String (hex_digit (n mod 16)) "").

(** One byte of a Go double-quoted literal.  Exact on ASCII; a byte from
    0x80 up is copied, which is what Go does for well-formed UTF-8 of
    printable runes. *)
Definition quote_byte (c : ascii) : string :=
  let n := nat_of_ascii c in
  if Ascii.eqb c dquote then "\" ++ dq
  else if Ascii.eqb c "\"%char then "\\"
  else if Nat.eqb n 7 then "\a"
  else if Nat.eqb n 8 then "\b"
  else if Nat.eqb n 12 then "\f"
  else if Nat.eqb n 10 then "\n"
  else if Nat.eqb n 13 then "\r"
  else if Nat.eqb n 9 then "\t"
  else if Nat.eqb n 11 then "\v"
  else if Nat.ltb n 32 || Nat.eqb n 127 then "\x" ++ hex2 n
  else String c "".

Definition Quote (s : string) : string :=
  dq ++ String.concat "" (map quote_byte (chars s)) ++ dq.

(** What [Sprintf] appends when operands are left over. *)
Fixpoint extra_list (args : list string) : string :=
  match args with
  | [] => ""
  | [a] => "string=" ++ a
  | a :: rest => "string=" ++ a ++ ", " ++ extra_list rest
  end.

Definition extra (args : list string) : string :=
  match args with
  | [] => ""
  | _ => "%!(EXTRA " ++ extra_list args ++ ")"
  end.

Definition hex2_upper (n : nat) : string :=
  String (nth (n / 16) (chars "0123456789ABCDEF") "0"%char)
         (String (nth (n mod 16) (chars "0123456789ABCDEF") "0"%char) "").

(** One string operand under a verb: [%s] and [%v] copy it, [%q] quotes it,
    [%x] and [%X] write its bytes in hexadecimal, [%T] names its type; any
    other verb is reported in the output. *)
Definition format_verb (v : ascii) (a : string) : string :=
  if Ascii.eqb v "s"%char then a
  else if Ascii.eqb v "v"%char then a
  else if Ascii.eqb v "q"%char then Quote a
  else if Ascii.eqb v "x"%char then
    String.concat "" (map (fun c => hex2 (nat_of_ascii c)) (chars a))
  else if Ascii.eqb v "X"%char then
    String.concat "" (map (fun c => hex2_upper (nat_of_ascii c)) (chars a))
  else if Ascii.eqb v "T"%char then "string"
  else "%!" ++ String v ("(string=" ++ a ++ ")").

(** [fmt.Sprintf] with string operands.  A verb is the byte after the
    percent sign, as in every format of this file; flags, widths and argument
    indexes are not modelled. *)
Fixpoint Sprintf (format : string) (args : list string) : string :=
  match format with
  | EmptyString => extra args
  | String c rest =>
      if Ascii.eqb c percent then
        match rest with
        | EmptyString => "%!(NOVERB)" ++ extra args
        | String v rest' =>
            if Ascii.eqb v percent then String percent (Sprintf rest' args)
            else match args with
                 | [] => "%!" ++ String v ("(MISSING)" ++ Sprintf rest' [])
                 | a :: args' => format_verb v a ++ Sprintf rest' args'
                 end
        end
      else String c (Sprintf rest args)
  end.

(** An [int] printed by a template action. *)
Definition itoa (n : Z) : string := NilZero.string_of_int (Z.to_int n).

(** ** The collaborating packages

    Only redhat.go is at hand; the types it takes from the other packages
    are given with the fields and constants that redhat.go and its templates
    name. *)

Module auth.
Record AuthOptions : Type := {
  CaCertRemotePath : string;
  ServerCertRemotePath : string;
  ServerKeyRemotePath : string
}.
End auth.

Module engine.
Record EngineOptions : Type := {
  StorageDriver : string;
  Labels : list string;
  InsecureRegistry : list string;
  RegistryMirror : list string;
  ArbitraryFlags : list string;
  Env : list string
}.

Definition withStorageDriver (o : EngineOptions) (s : string) : EngineOptions :=
  {| StorageDriver := s; Labels := Labels o;
     InsecureRegistry := InsecureRegistry o; RegistryMirror := RegistryMirror o;
     ArbitraryFlags := ArbitraryFlags o; Env := Env o |}.

Definition withLabels (o : EngineOptions) (l : list string) : EngineOptions :=
  {| StorageDriver := StorageDriver o; Labels := l;
     InsecureRegistry := InsecureRegistry o; RegistryMirror := RegistryMirror o;
     ArbitraryFlags := ArbitraryFlags o; Env := Env o |}.
End engine.

Module pkgaction.
(** The package actions, the three that the switch of [Package] names. *)
Inductive PackageAction : Type := Install | Remove | Upgrade.
End pkgaction.

Module serviceaction.
(** The service actions: redhat.go names Start, Restart and Enable, the
    design document adds Stop and Disable. *)
Inductive ServiceAction : Type := Restart | Start | Stop | Enable | Disable.

(** Modelled from the spec: [ServiceAction.String] of package serviceaction
    is not in redhat.go.  The design document gives the service actions as
    start/stop/restart/enable/disable, "each mapped deterministically to a
    command string", every variant with "exactly one non-empty command
    mapping". *)
Definition String (s : ServiceAction) : string :=
  match s with
  | Restart => "restart"
  | Start => "start"
  | Stop => "stop"
  | Enable => "enable"
  | Disable => "disable"
  end.
End serviceaction.

Module ssh.
(** The implementations of [ssh.Client] that [SSHCommand] tells apart, and
    any other one. *)
Inductive Client : Type :=
| ExternalClient (BaseArgs : list string)
| NativeClient
| OtherClient.

(** The two ways [SSHCommand] calls a client. *)
Inductive Call : Type :=
| Output (c : Client) (args : string)
| OutputWithPty (c : Client) (args : string).
End ssh.

Module drivers.
(** The methods of [drivers.Driver] that redhat.go calls.  [SSHClient] is
    what [drivers.GetSSHClientFromDriver] yields for this driver. *)
Record Driver : Type := {
  GetMachineName : string;
  DriverName : string;
  SSHSudo : string -> string;
  SSHClient : result ssh.Client
}.

Definition GetSSHClientFromDriver (d : Driver) : result ssh.Client :=
  SSHClient d.
End drivers.

Record OsRelease : Type := {
  Id : string;
  Version : string
}.

Record PackageListInfo : Type := {
  OsRelease_ : string;        (* field OsRelease *)
  OsReleaseVersion : string
}.

Module EngineConfigContext.
Record t : Type := {
  DockerPort : Z;
  AuthOptions : auth.AuthOptions;
  EngineOptions : engine.EngineOptions;
  DockerOptionsDir : string
}.
End EngineConfigContext.

Module DockerOptions.
Record t : Type := {
  EngineOptions : string;
  EngineOptionsPath : string
}.
End DockerOptions.

(** ** The templates *)

Definition packageListTemplate : string :=
  "[docker]" ++ nl ++
  "name=Docker Stable Repository" ++ nl ++
  "baseurl=https://yum.dockerproject.org/repo/main/{{.OsRelease}}/{{.OsReleaseVersion}}" ++ nl ++
  "priority=1" ++ nl ++
  "enabled=1" ++ nl ++
  "gpgkey=https://yum.dockerproject.org/gpg" ++ nl.

Definition engineConfigTemplate : string :=
  "[Service]" ++ nl ++
  "ExecStart=/usr/bin/docker -d -H tcp://0.0.0.0:{{.DockerPort}} -H unix:///var/run/docker.sock --storage-driver {{.EngineOptions.StorageDriver}} --tlsverify --tlscacert {{.AuthOptions.CaCertRemotePath}} --tlscert {{.AuthOptions.ServerCertRemotePath}} --tlskey {{.AuthOptions.ServerKeyRemotePath}} {{ range .EngineOptions.Labels }}--label {{.}} {{ end }}{{ range .EngineOptions.InsecureRegistry }}--insecure-registry {{.}} {{ end }}{{ range .EngineOptions.RegistryMirror }}--registry-mirror {{.}} {{ end }}{{ range .EngineOptions.ArbitraryFlags }}--{{.}} {{ end }}" ++ nl ++
  "MountFlags=slave" ++ nl ++
  "LimitNOFILE=1048576" ++ nl ++
  "LimitNPROC=1048576" ++ nl ++
  "LimitCORE=infinity" ++ nl ++
  "Environment={{range .EngineOptions.Env}}{{ printf " ++ dq ++ "%q" ++ dq ++ " . }} {{end}}" ++ nl.

(** [{{ range xs }}body{{ end }}]: the body once per element, in order. *)
Definition range (xs : list string) (body : string -> string) : string :=
  String.concat "" (map body xs).

(** What executing [packageListTemplate] writes. *)
Definition renderPackageList (i : PackageListInfo) : string :=
  "[docker]" ++ nl ++
  "name=Docker Stable Repository" ++ nl ++
  "baseurl=https://yum.dockerproject.org/repo/main/" ++ OsRelease_ i ++ "/" ++ OsReleaseVersion i ++ nl ++
  "priority=1" ++ nl ++
  "enabled=1" ++ nl ++
  "gpgkey=https://yum.dockerproject.org/gpg" ++ nl.

(** The line of [engineConfigTemplate] that starts the daemon. *)
Definition execStartLine (c : EngineConfigContext.t) : string :=
  let a := EngineConfigContext.AuthOptions c in
  let e := EngineConfigContext.EngineOptions c in
  "ExecStart=/usr/bin/docker -d -H tcp://0.0.0.0:" ++ itoa (EngineConfigContext.DockerPort c) ++
  " -H unix:///var/run/docker.sock --storage-driver " ++ engine.StorageDriver e ++
  " --tlsverify --tlscacert " ++ auth.CaCertRemotePath a ++
  " --tlscert " ++ auth.ServerCertRemotePath a ++
  " --tlskey " ++ auth.ServerKeyRemotePath a ++ " " ++
  range (engine.Labels e) (fun x => "--label " ++ x ++ " ") ++
  range (engine.InsecureRegistry e) (fun x => "--insecure-registry " ++ x ++ " ") ++
  range (engine.RegistryMirror e) (fun x => "--registry-mirror " ++ x ++ " ") ++
  range (engine.ArbitraryFlags e) (fun x => "--" ++ x ++ " ").

(** Its last line. *)
Definition environmentLine (c : EngineConfigContext.t) : string :=
  "Environment=" ++
  range (engine.Env (EngineConfigContext.EngineOptions c))
        (fun x => Sprintf "%q" [x] ++ " ").

(** What executing [engineConfigTemplate] writes. *)
Definition renderEngineConfig (c : EngineConfigContext.t) : string :=
  "[Service]" ++ nl ++
  execStartLine c ++ nl ++
  "MountFlags=slave" ++ nl ++
  "LimitNOFILE=1048576" ++ nl ++
  "LimitNPROC=1048576" ++ nl ++
  "LimitCORE=infinity" ++ nl ++
  environmentLine c ++ nl.

(** The value a template is executed on. *)
Inductive TemplateData : Type :=
| PackageListData (i : PackageListInfo)
| EngineConfigData (c : EngineConfigContext.t).

(** Package text/template as redhat.go uses it: [Parse] is
    [template.New(name).Parse(text)]; [Execute] gives what was written to
    the buffer and the error, if any. *)
Record TemplateLib : Type := {
  Template : Type;
  Parse : string -> string -> result Template;
  Execute : Template -> TemplateData -> string * option error
}.

(** The templates of this file, parsed. *)
Inductive ParsedTemplate : Type :=
| PackageListTemplate
| EngineConfigTemplate.

(** text/template on the two templates of this file: both parse, and
    executing one on the data it is written for writes the whole text. *)
Definition goTemplate : TemplateLib := {|
  Template := ParsedTemplate;
  Parse := fun _ text =>
    if String.eqb text packageListTemplate then Ok PackageListTemplate
    else if String.eqb text engineConfigTemplate then Ok EngineConfigTemplate
    else Err (ErrOther "template: parse error");
  Execute := fun t d =>
    match t, d with
    | PackageListTemplate, PackageListData i => (renderPackageList i, None)
    | EngineConfigTemplate, EngineConfigData c => (renderEngineConfig c, None)
    | _, _ => ("", Some (ErrOther "template: exec error"))
    end
|}.

(** ** The provisioner *)

Section Provisioner.

(** [swarm.SwarmOptions] is passed through unread. *)
Variable SwarmOptions : Type.

(** [RedHatProvisioner] with the fields of the embedded
    [GenericProvisioner] that redhat.go reads or writes.  [OsReleaseInfo]
    is what the inherited method [GetOsReleaseInfo] returns. *)
Record RedHatProvisioner : Type := {
  DockerOptionsDir : string;
  DaemonOptionsFile : string;
  OsReleaseId : string;
  Packages : list string;
  Driver : drivers.Driver;
  AuthOptions : auth.AuthOptions;
  EngineOptions : engine.EngineOptions;
  SwarmOptions_ : option SwarmOptions;   (* field SwarmOptions; None is the zero value *)
  OsReleaseInfo : result OsRelease
}.

(** The provisioner [NewRedHatProvisioner] builds for a driver, with the
    outcome [info] that the detector gives its [GetOsReleaseInfo]. *)
Definition NewRedHatProvisioner (d : drivers.Driver) (info : result OsRelease)
    : RedHatProvisioner :=
  {| DockerOptionsDir := "/etc/docker";
     DaemonOptionsFile := "/etc/systemd/system/docker.service";
     OsReleaseId := "rhel";
     Packages := ["curl"];
     Driver := d;
     AuthOptions := {| auth.CaCertRemotePath := ""; auth.ServerCertRemotePath := "";
                       auth.ServerKeyRemotePath := "" |};
     EngineOptions := {| engine.StorageDriver := ""; engine.Labels := [];
                         engine.InsecureRegistry := []; engine.RegistryMirror := [];
                         engine.ArbitraryFlags := []; engine.Env := [] |};
     SwarmOptions_ := None;
     OsReleaseInfo := info |}.

Definition setSwarmOptions (p : RedHatProvisioner) (s : SwarmOptions) :=
  {| DockerOptionsDir := DockerOptionsDir p; DaemonOptionsFile := DaemonOptionsFile p;
     OsReleaseId := OsReleaseId p; Packages := Packages p; Driver := Driver p;
     AuthOptions := AuthOptions p; EngineOptions := EngineOptions p;
     SwarmOptions_ := Some s; OsReleaseInfo := OsReleaseInfo p |}.

Definition setAuthOptions (p : RedHatProvisioner) (a : auth.AuthOptions) :=
  {| DockerOptionsDir := DockerOptionsDir p; DaemonOptionsFile := DaemonOptionsFile p;
     OsReleaseId := OsReleaseId p; Packages := Packages p; Driver := Driver p;
     AuthOptions := a; EngineOptions := EngineOptions p;
     SwarmOptions_ := SwarmOptions_ p; OsReleaseInfo := OsReleaseInfo p |}.

Definition setEngineOptions (p : RedHatProvisioner) (e : engine.EngineOptions) :=
  {| DockerOptionsDir := DockerOptionsDir p; DaemonOptionsFile := DaemonOptionsFile p;
     OsReleaseId := OsReleaseId p; Packages := Packages p; Driver := Driver p;
     AuthOptions := AuthOptions p; EngineOptions := e;
     SwarmOptions_ := SwarmOptions_ p; OsReleaseInfo := OsReleaseInfo p |}.

Definition GetOsReleaseInfo (p : RedHatProvisioner) : result OsRelease :=
  OsReleaseInfo p.

(** *** The world a run acts on *)

(** The remote end of the SSH connection, and how it answers a call. *)
Variable Remote : Type.
Variable answer : ssh.Call -> Remote -> result string * Remote.

(** One call of [SSHCommand]: the command, and the provisioner as it is when
    the call is made. *)
Record Issued : Type := {
  issuer : RedHatProvisioner;
  command : string
}.

(** The provisioner, the remote end, and the history of [SSHCommand] calls
    made by redhat.go, oldest first. *)
Record State : Type := {
  prov : RedHatProvisioner;
  remote : Remote;
  history : list Issued
}.

Definition commands (st : State) : list string := map command (history st).

Definition M (A : Type) : Type := State -> result A * State.

Definition ret {A} (a : A) : M A := fun st => (Ok a, st).

Definition bind {A B} (m : M A) (k : A -> M B) : M B :=
  fun st =>
    match m st with
    | (Ok a, st') => k a st'
    | (Err e, st') => (Err e, st')
    end.

Definition lift {A} (r : result A) : M A := fun st => (r, st).

(** The receiver of a method. *)
Definition provisioner : M RedHatProvisioner := fun st => (Ok (prov st), st).

Definition assign (f : RedHatProvisioner -> RedHatProvisioner) : M unit :=
  fun st => (Ok tt, {| prov := f (prov st); remote := remote st; history := history st |}).

Notation "x <- m ;; k" := (bind m (fun x => k))
  (at level 61, m at next level, right associativity).
Notation "m ;; k" := (bind m (fun _ => k))
  (at level 61, right associativity).

(** [for _, x := range xs { if err := body(x); err != nil { return err } }] *)
Fixpoint forEach {A} (xs : list A) (body : A -> M unit) : M unit :=
  match xs with
  | [] => ret tt
  | x :: rest => body x ;; forEach rest body
  end.

(** The collaborators of the same package that are not in redhat.go.  Each
    is given the provisioner and reaches the remote host; what they send is
    not part of [history]. *)
Definition External : Type :=
  RedHatProvisioner -> Remote -> option error * (RedHatProvisioner * Remote).

Variable makeDockerOptionsDir : External.
Variable ConfigureAuth : External.
Variable configureSwarm : SwarmOptions -> auth.AuthOptions -> External.
Variable setRemoteAuthOptions : RedHatProvisioner -> auth.AuthOptions.

Definition call (f : External) : M unit :=
  fun st =>
    match f (prov st) (remote st) with
    | (None, (p, r)) => (Ok tt, {| prov := p; remote := r; history := history st |})
    | (Some e, (p, r)) => (Err e, {| prov := p; remote := r; history := history st |})
    end.

(** Package text/template. *)
Variable lib : TemplateLib.

(** The number of times [mcnutils.WaitFor] asks again after the first
    probe. *)
Variable retries : nat.

(** *** redhat.go *)

Definition record (args : string) (st : State) : State :=
  {| prov := prov st; remote := remote st;
     history := (history st ++ [{| issuer := prov st; command := args |}])%list |}.

Definition send (c : ssh.Call) : M string :=
  fun st =>
    let (r, rem) := answer c (remote st) in
    (r, {| prov := prov st; remote := rem; history := history st |}).

Definition SSHCommand (args : string) : M string :=
  fun st =>
    let st := record args st in
    match drivers.GetSSHClientFromDriver (Driver (prov st)) with
    | Err e => (Err e, st)
    | Ok client =>
        match client with
        | ssh.ExternalClient BaseArgs =>
            send (ssh.Output (ssh.ExternalClient (BaseArgs ++ ["-tt"])%list) args) st
        | ssh.NativeClient => send (ssh.OutputWithPty ssh.NativeClient args) st
        | ssh.OtherClient => send (ssh.Output ssh.OtherClient args) st
        end
    end.

Definition SetHostname (hostname : string) : M unit :=
  p <- provisioner ;;
  let command := "sh -c 'hostname %s && echo %q | tee /etc/hostname'" in
  let command := drivers.SSHSudo (Driver p) command in
  _ <- SSHCommand (Sprintf command [hostname; hostname]) ;;
  p <- provisioner ;;
  let if_then := "sh -c " ++ dq ++ "sed -i 's/^127.0.1.1.*/127.0.1.1 %s/g' /etc/hosts" ++ dq in
  let if_else := "sh -c " ++ dq ++ "echo '127.0.1.1 %s' | tee -a /etc/hosts" ++ dq in
  let if_then := drivers.SSHSudo (Driver p) if_then in
  let if_else := drivers.SSHSudo (Driver p) if_else in
  let command :=
    Sprintf "if grep -xq 127.0.1.1.* /etc/hosts; then %s; else %s; fi" [if_then; if_else] in
  _ <- SSHCommand (Sprintf command [hostname; hostname]) ;;
  ret tt.

Definition reloadDaemon (action : serviceaction.ServiceAction) : bool :=
  match action with
  | serviceaction.Start | serviceaction.Restart => true
  | _ => false
  end.

Definition Service (name : string) (action : serviceaction.ServiceAction) : M unit :=
  (if reloadDaemon action then
     p <- provisioner ;;
     let reload_command := drivers.SSHSudo (Driver p) "systemctl daemon-reload" in
     _ <- SSHCommand reload_command ;;
     ret tt
   else ret tt) ;;
  p <- provisioner ;;
  let systemctl_command := drivers.SSHSudo (Driver p) "systemctl %s %s" in
  let command := Sprintf systemctl_command [serviceaction.String action; name] in
  _ <- SSHCommand command ;;
  ret tt.

(** The switch of [Package]. *)
Definition packageAction (action : pkgaction.PackageAction) : string :=
  match action with
  | pkgaction.Install => "install"
  | pkgaction.Remove => "remove"
  | pkgaction.Upgrade => "upgrade"
  end.

Definition Package (name : string) (action : pkgaction.PackageAction) : M unit :=
  p <- provisioner ;;
  let yum_command := drivers.SSHSudo (Driver p) "yum %s -y %s" in
  let command := Sprintf yum_command [packageAction action; name] in
  _ <- SSHCommand command ;;
  ret tt.

(** The switch of [generateYumRepoList]. *)
Definition packageListInfo (id : string) : result PackageListInfo :=
  if String.eqb id "rhel" || String.eqb id "centos" then
    Ok {| OsRelease_ := "centos"; OsReleaseVersion := "7" |}
  else if String.eqb id "fedora" then
    Ok {| OsRelease_ := "fedora"; OsReleaseVersion := "22" |}
  else Err ErrUnknownYumOsRelease.

Definition generateYumRepoList (p : RedHatProvisioner) : result string :=
  match GetOsReleaseInfo p with
  | Err e => Err e
  | Ok releaseInfo =>
      match packageListInfo (Id releaseInfo) with
      | Err e => Err e
      | Ok info =>
          match Parse lib "packageList" packageListTemplate with
          | Err e => Err e
          | Ok t =>
              match Execute lib t (PackageListData info) with
              | (_, Some e) => Err e
              | (buf, None) => Ok buf
              end
          end
      end
  end.

Definition ConfigurePackageList : M unit :=
  p <- provisioner ;;
  buf <- lift (generateYumRepoList p) ;;
  let packageCmd :=
    drivers.SSHSudo (Driver p) "sh -c 'echo %q | sudo tee /etc/yum.repos.d/docker.repo'" in
  let packageCmd := Sprintf packageCmd [buf] in
  _ <- SSHCommand packageCmd ;;
  ret tt.

Definition installOfficialDocker : M unit :=
  ConfigurePackageList ;;
  p <- provisioner ;;
  let engine_install_command := drivers.SSHSudo (Driver p) "yum install -y docker-engine" in
  _ <- SSHCommand engine_install_command ;;
  ret tt.

Definition installDocker : M unit :=
  installOfficialDocker ;;
  Service "docker" serviceaction.Restart ;;
  Service "docker" serviceaction.Enable ;;
  ret tt.

Definition dockerDaemonResponding : State -> bool * State :=
  fun st =>
    let docker_version_command := drivers.SSHSudo (Driver (prov st)) "docker version" in
    match SSHCommand docker_version_command st with
    | (Err _, st') => (false, st')
    | (Ok _, st') => (true, st')
    end.

(** Modelled from the spec: [mcnutils.WaitFor] is not in redhat.go.  The
    design document has it invoke the probe, retry when the probe says
    false, end successfully on the first true result and end with a timeout
    error after a bounded number of tries, at least one. *)
Fixpoint WaitFor_from (tries : nat) (probe : State -> bool * State) : M unit :=
  fun st =>
    let (up, st') := probe st in
    if up then (Ok tt, st')
    else match tries with
         | O => (Err ErrReadinessTimeout, st')
         | S n => WaitFor_from n probe st'
         end.

Definition WaitFor (probe : State -> bool * State) : M unit :=
  WaitFor_from retries probe.

Definition Provision (swarmOptions : SwarmOptions) (authOptions : auth.AuthOptions)
    (engineOptions : engine.EngineOptions) : M unit :=
  assign (fun p => setSwarmOptions p swarmOptions) ;;
  assign (fun p => setAuthOptions p authOptions) ;;
  assign (fun p => setEngineOptions p engineOptions) ;;
  p <- provisioner ;;
  (if String.eqb (engine.StorageDriver (EngineOptions p)) "" then
     assign (fun p =>
       setEngineOptions p (engine.withStorageDriver (EngineOptions p) "devicemapper"))
   else ret tt) ;;
  p <- provisioner ;;
  SetHostname (drivers.GetMachineName (Driver p)) ;;
  p <- provisioner ;;
  forEach (Packages p) (fun pkg => Package pkg pkgaction.Install) ;;
  p <- provisioner ;;
  let yum_update_command := drivers.SSHSudo (Driver p) "yum -y update" in
  _ <- SSHCommand yum_update_command ;;
  installDocker ;;
  WaitFor dockerDaemonResponding ;;
  call makeDockerOptionsDir ;;
  assign (fun p => setAuthOptions p (setRemoteAuthOptions p)) ;;
  call ConfigureAuth ;;
  p <- provisioner ;;
  call (configureSwarm swarmOptions (AuthOptions p)) ;;
  ret tt.

Definition GenerateDockerOptions (dockerPort : Z) : M DockerOptions.t :=
  p <- provisioner ;;
  let configPath := DaemonOptionsFile p in
  let driverNameLabel := Sprintf "provider=%s" [drivers.DriverName (Driver p)] in
  assign (fun p =>
    setEngineOptions p
      (engine.withLabels (EngineOptions p) (engine.Labels (EngineOptions p) ++ [driverNameLabel])%list)) ;;
  t <- lift (Parse lib "engineConfig" engineConfigTemplate) ;;
  p <- provisioner ;;
  let engineConfigContext :=
    {| EngineConfigContext.DockerPort := dockerPort;
       EngineConfigContext.AuthOptions := AuthOptions p;
       EngineConfigContext.EngineOptions := EngineOptions p;
       EngineConfigContext.DockerOptionsDir := DockerOptionsDir p |} in
  let (engineCfg, _) := Execute lib t (EngineConfigData engineConfigContext) in
  let daemonOptsDir := configPath in
  ret {| DockerOptions.EngineOptions := engineCfg;
         DockerOptions.EngineOptionsPath := daemonOptsDir |}.

Definition providerLabel (p : RedHatProvisioner) : string :=
  "provider=" ++ drivers.DriverName (Driver p).

(** The context [GenerateDockerOptions] renders when called on [p]. *)
Definition contextOf (dockerPort : Z) (p : RedHatProvisioner) : EngineConfigContext.t :=
  {| EngineConfigContext.DockerPort := dockerPort;
     EngineConfigContext.AuthOptions := AuthOptions p;
     EngineConfigContext.EngineOptions :=
       engine.withLabels (EngineOptions p)
         (engine.Labels (EngineOptions p) ++ [providerLabel p])%list;
     EngineConfigContext.DockerOptionsDir := DockerOptionsDir p |}.

(** What a call adds to the history, and the commands in it. *)
Definition added {A} (m : State -> A * State) (st : State) : list Issued :=
  skipn (length (history st)) (history (snd (m st))).

Definition issuedBy {A} (m : State -> A * State) (st : State) : list string :=
  map command (added m st).

(** The call changes nothing of the provisioner, and what it adds to the
    history was issued by the provisioner as it stood. *)
Definition keeps {A} (m : State -> A * State) : Prop :=
  forall st,
    prov (snd (m st)) = prov st /\
    exists h, history (snd (m st)) = (history st ++ h)%list /\
              Forall (fun i => issuer i = prov st) h.

(** [n] calls of a method, one after the other; the results are dropped. *)
Fixpoint times {A} (n : nat) (m : M A) : State -> State :=
  match n with
  | O => fun st => st
  | S k => fun st => times k m (snd (m st))
  end.

(** *** The bootstrap sequence of the design document

    The states of its section 4.7 after [Init]; repository configuration
    and engine install are the one call of [installDocker]. *)
Inductive Phase : Type :=
| HostnameSet
| BasePackagesInstalled
| OsUpdated
| EngineInstalled
| EngineRunning
| OptionsDirReady
| AuthConfigured
| SwarmConfigured.

Definition phases : list Phase :=
  [HostnameSet; BasePackagesInstalled; OsUpdated; EngineInstalled; EngineRunning;
   OptionsDirReady; AuthConfigured; SwarmConfigured].

(** How a run of the sequence ends: the transitions made, the transition
    that failed with its error, and the state it is left in. *)
Record Outcome : Type := {
  completed : list Phase;
  failure : option (Phase * error);
  final : State
}.

(** The state machine as the design document words it: linear, every
    transition made in turn, the first failure ends the run where it
    stands. *)
Fixpoint orchestrate (plan : list (Phase * M unit)) (st : State) : Outcome :=
  match plan with
  | [] => {| completed := []; failure := None; final := st |}
  | (ph, transition) :: rest =>
      match transition st with
      | (Ok _, st') =>
          let o := orchestrate rest st' in
          {| completed := ph :: completed o; failure := failure o; final := final o |}
      | (Err e, st') => {| completed := []; failure := Some (ph, e); final := st' |}
      end
  end.

Definition surfaced (o : Outcome) : result unit :=
  match failure o with
  | None => Ok tt
  | Some (_, e) => Err e
  end.

(** The state after the transitions of [plan], when all of them succeed. *)
Fixpoint succeed (plan : list (Phase * M unit)) (st : State) : option State :=
  match plan with
  | [] => Some st
  | (_, transition) :: rest =>
      match transition st with
      | (Ok _, st') => succeed rest st'
      | (Err _, _) => None
      end
  end.

(** What [Provision] does before its first command. *)
Definition provisionInit (swarmOptions : SwarmOptions) (authOptions : auth.AuthOptions)
    (engineOptions : engine.EngineOptions) (st : State) : State :=
  let e := if String.eqb (engine.StorageDriver engineOptions) ""
           then engine.withStorageDriver engineOptions "devicemapper"
           else engineOptions in
  {| prov := setEngineOptions (setAuthOptions (setSwarmOptions (prov st) swarmOptions) authOptions) e;
     remote := remote st; history := history st |}.

(** The calls of [Provision], each under the transition it makes. *)
Definition provisionPlan (swarmOptions : SwarmOptions) : list (Phase * M unit) :=
  [ (HostnameSet,
      p <- provisioner ;; SetHostname (drivers.GetMachineName (Driver p)));
    (BasePackagesInstalled,
      p <- provisioner ;; forEach (Packages p) (fun pkg => Package pkg pkgaction.Install));
    (OsUpdated,
      p <- provisioner ;;
      _ <- SSHCommand (drivers.SSHSudo (Driver p) "yum -y update") ;; ret tt);
    (EngineInstalled, installDocker);
    (EngineRunning, WaitFor dockerDaemonResponding);
    (OptionsDirReady, call makeDockerOptionsDir);
    (AuthConfigured,
      assign (fun p => setAuthOptions p (setRemoteAuthOptions p)) ;; call ConfigureAuth);
    (SwarmConfigured,
      p <- provisioner ;; call (configureSwarm swarmOptions (AuthOptions p))) ].

End Provisioner.

(** ** The loopback entry of /etc/hosts

    What the second command of [SetHostname] does to /etc/hosts, read as the
    list of its lines:

      if grep -xq 127.0.1.1.* /etc/hosts;
      then sed -i 's/^127.0.1.1.*/127.0.1.1 HOSTNAME/g' /etc/hosts;
      else echo '127.0.1.1 HOSTNAME' | tee -a /etc/hosts; fi

    for a host name that the shell and sed take literally. *)

Module hosts.

(** A line against a pattern followed by [.*], a dot of the pattern
    standing for any character. *)
Fixpoint matches (pattern line : string) : bool :=
  match pattern, line with
  | EmptyString, _ => true
  | String _ _, EmptyString => false
  | String p pattern', String c line' =>
      (Ascii.eqb p "."%char || Ascii.eqb p c) && matches pattern' line'
  end.

(** The lines [grep -x 127.0.1.1.*] selects and [s/^127.0.1.1.*/.../]
    rewrites. *)
Definition loopback (line : string) : bool := matches "127.0.1.1" line.

Definition entry (hostname : string) : string := "127.0.1.1 " ++ hostname.

Definition grep (file : list string) : bool := existsb loopback file.

Definition sed (hostname : string) (file : list string) : list string :=
  map (fun line => if loopback line then entry hostname else line) file.

Definition tee_a (hostname : string) (file : list string) : list string :=
  (file ++ [entry hostname])%list.

Definition update (hostname : string) (file : list string) : list string :=
  if grep file then sed hostname file else tee_a hostname file.




(** The two commands of [SetHostname], as they leave a driver that
    escalates with [prefix]. *)
Definition setCommand (prefix hostname : string) : string :=
  prefix ++ "sh -c 'hostname " ++ hostname ++ " && echo " ++ Quote hostname ++
  " | tee /etc/hostname'".

Definition script (prefix hostname : string) : string :=
  "if grep -xq 127.0.1.1.* /etc/hosts; then " ++
  prefix ++ "sh -c " ++ dq ++ "sed -i 's/^127.0.1.1.*/127.0.1.1 " ++ hostname ++
  "/g' /etc/hosts" ++ dq ++ "; else " ++
  prefix ++ "sh -c " ++ dq ++ "echo '127.0.1.1 " ++ hostname ++ "' | tee -a /etc/hosts" ++ dq ++
  "; fi".

End hosts.

(** ** Test doubles *)

Module double.

(** A driver that escalates with sudo. *)
Definition sudo (machine driver : string) : drivers.Driver :=
  {| drivers.GetMachineName := machine;
     drivers.DriverName := driver;
     drivers.SSHSudo := fun c => "sudo " ++ c;
     drivers.SSHClient := Ok ssh.NativeClient |}.

(** A remote end that gives canned answers, then succeeds. *)
Definition Remote : Type := list (result string).

Definition answer (_ : ssh.Call) (r : Remote) : result string * Remote :=
  match r with
  | [] => (Ok "", [])
  | a :: rest => (a, rest)
  end.

Definition SwarmOptions : Type := unit.

Definition succeeds : External SwarmOptions Remote := fun p r => (None, (p, r)).

Definition keepAuth (p : RedHatProvisioner SwarmOptions) : auth.AuthOptions :=
  AuthOptions p.

Definition centos : result OsRelease := Ok {| Id := "centos"; Version := "7" |}.

Definition start (p : RedHatProvisioner SwarmOptions) (answers : Remote)
    : State SwarmOptions Remote :=
  {| prov := p; remote := answers; history := [] |}.

Definition noAuth : auth.AuthOptions :=
  {| auth.CaCertRemotePath := ""; auth.ServerCertRemotePath := "";
     auth.ServerKeyRemotePath := "" |}.

Definition options (driver : string) (labels insecure env : list string)
    : engine.EngineOptions :=
  {| engine.StorageDriver := driver; engine.Labels := labels;
     engine.InsecureRegistry := insecure; engine.RegistryMirror := [];
     engine.ArbitraryFlags := []; engine.Env := env |}.



Definition host : RedHatProvisioner SwarmOptions :=
  NewRedHatProvisioner SwarmOptions (sudo "box" "virtualbox") centos.

Definition context (labels insecure env : list string) : EngineConfigContext.t :=
  {| EngineConfigContext.DockerPort := 2376;
     EngineConfigContext.AuthOptions := noAuth;
     EngineConfigContext.EngineOptions := options "devicemapper" labels insecure env;
     EngineConfigContext.DockerOptionsDir := "/etc/docker" |}.

Definition Provision := Provision answer succeeds succeeds (fun _ _ => succeeds) keepAuth goTemplate 2.

Definition provisionPlan := provisionPlan answer succeeds succeeds (fun _ _ => succeeds) keepAuth goTemplate 2.

End double.

(** ** Reading a driver and a rendered unit file *)

Definition percentFree (s : string) : bool :=
  negb (existsb (Ascii.eqb percent) (chars s)).

(** The driver escalates by putting [prefix] before the command, and the
    prefix has no formatting verb in it. *)
Definition escalatesWith (d : drivers.Driver) (prefix : string) : Prop :=
  percentFree prefix = true /\ forall c, drivers.SSHSudo d c = prefix ++ c.



(** ** Scripts, plans and taps

    Vocabulary for what the provisioner sends as a whole. *)

Section Scripts.

Variable SwarmOptions : Type.
Variable Remote : Type.
Variable answer : ssh.Call -> Remote -> result string * Remote.

(** The commands given to [SSHCommand] one after the other, up to the first
    that fails, whose error is the result. *)
Fixpoint sendAll (cmds : list string) : M SwarmOptions Remote unit :=
  match cmds with
  | [] => ret tt
  | c :: rest => bind (SSHCommand answer c) (fun _ => sendAll rest)
  end.

(** On the provisioner [p], the method [m] is the script [cmds]: same
    result, same state after. *)
Definition scriptOf (p : RedHatProvisioner SwarmOptions) (m : M SwarmOptions Remote unit)
    (cmds : list string) : Prop :=
  forall st, prov st = p -> m st = sendAll cmds st.

(** A plan run as a method: what it returns and the state it leaves. *)
Definition runPlan (plan : list (Phase * M SwarmOptions Remote unit))
    : M SwarmOptions Remote unit :=
  fun st => (surfaced (orchestrate plan st), final (orchestrate plan st)).


End Scripts.

(** The command of [ConfigurePackageList] for the repository text [repo], as
    it leaves a driver that escalates with [prefix]. *)
Definition repoCommand (prefix repo : string) : string :=
  prefix ++ "sh -c 'echo " ++ Quote repo ++ " | sudo tee /etc/yum.repos.d/docker.repo'".

(** The commands of [installDocker], in the order of the source. *)
Definition installCommands (prefix repo : string) : list string :=
  [repoCommand prefix repo;
   prefix ++ "yum install -y docker-engine";
   prefix ++ "systemctl daemon-reload";
   prefix ++ "systemctl restart docker";
   prefix ++ "systemctl enable docker"].


(** The phases of [Provision] in which redhat.go itself sends commands. *)
Definition commandPhases : list Phase :=
  [HostnameSet; BasePackagesInstalled; OsUpdated; EngineInstalled; EngineRunning].


(** Further hosts for the test doubles. *)

Module cases.

(** A host whose OS release the repository switch does not know. *)
Definition solaris : result OsRelease := Ok {| Id := "solaris"; Version := "11" |}.

Definition unknownHost : RedHatProvisioner double.SwarmOptions :=
  NewRedHatProvisioner double.SwarmOptions (double.sudo "box" "virtualbox") solaris.

(** A driver that has no SSH client to give. *)
Definition offline : drivers.Driver :=
  {| drivers.GetMachineName := "box";
     drivers.DriverName := "virtualbox";
     drivers.SSHSudo := fun c => "sudo " ++ c;
     drivers.SSHClient := Err (ErrOther "ssh: no client") |}.

Definition offlineHost : RedHatProvisioner double.SwarmOptions :=
  NewRedHatProvisioner double.SwarmOptions offline double.centos.




Definition centosRepo : string :=
  renderPackageList {| OsRelease_ := "centos"; OsReleaseVersion := "7" |}.

(** A host that was provisioned before with other options. *)
Definition usedHost : RedHatProvisioner double.SwarmOptions :=
  setEngineOptions (setSwarmOptions double.host tt)
                   (double.options "overlay" ["old"] [] []).

End cases.


(** * Properties *)

(** ** Strings *)

Lemma append_empty_r (s : string) : s ++ "" = s.
Proof. induction s as [|c s IH]; simpl; [reflexivity | now rewrite IH]. Qed.

Lemma append_assoc (a b c : string) : (a ++ b) ++ c = a ++ (b ++ c).
Proof. induction a as [|x a IH]; simpl; [reflexivity | now rewrite IH]. Qed.

Lemma append_inv_head (a b c : string) : a ++ b = a ++ c -> b = c.
Proof.
  induction a as [|x a IH]; simpl; intros H; [exact H |].
  injection H as H. now apply IH.
Qed.

(** ** Line feeds in what the templates write *)

Lemma concat_empty_cons (x : string) (l : list string) :
  String.concat "" (x :: l) = x ++ String.concat "" l.
Proof. destruct l; simpl; [now rewrite append_empty_r | reflexivity]. Qed.

Lemma range_app (xs ys : list string) (body : string -> string) :
  range (xs ++ ys) body = range xs body ++ range ys body.
Proof.
  unfold range. induction xs as [|x xs IH]; [reflexivity |].
  cbn [app map]. now rewrite !concat_empty_cons, IH, append_assoc.
Qed.

Lemma range_repeat (x : string) (n : nat) (body : string -> string) :
  range (repeat x n) body = String.concat "" (repeat (body x) n).
Proof. unfold range. now rewrite map_repeat. Qed.

Lemma has_newline_append (a b : string) :
  has_newline (a ++ b) = has_newline a || has_newline b.
Proof.
  unfold has_newline, chars. induction a as [|c a IH]; [reflexivity |].
  cbn [append list_ascii_of_string existsb]. now rewrite IH, orb_assoc.
Qed.




Lemma has_newline_quote_byte (c : ascii) : has_newline (quote_byte c) = false.
Proof. destruct c as [[|] [|] [|] [|] [|] [|] [|] [|]]; reflexivity. Qed.

Lemma has_newline_Quote (s : string) : has_newline (Quote s) = false.
Proof.
  unfold Quote. rewrite !has_newline_append.
  assert (H : has_newline (String.concat "" (map quote_byte (chars s))) = false).
  { unfold chars. induction s as [|c s IH]; [reflexivity |].
    cbn [list_ascii_of_string map].
    now rewrite concat_empty_cons, has_newline_append, has_newline_quote_byte, IH. }
  now rewrite H.
Qed.







Lemma found_here (x y post : string) :
  exists pre post', x ++ y ++ post = pre ++ x ++ y ++ post'.
Proof. now exists "", post. Qed.

Lemma found_later (a text x y : string) :
  (exists pre post, text = pre ++ x ++ y ++ post) ->
  exists pre post, a ++ text = pre ++ x ++ y ++ post.
Proof.
  intros (pre & post & H). exists (a ++ pre), post. now rewrite H, append_assoc.
Qed.

(** ** The loopback entry *)

Module hosts_facts.
Import hosts.

Lemma loopback_entry (h : string) : loopback (entry h) = true.
Proof. reflexivity. Qed.














End hosts_facts.


Section Properties.

Variable SwarmOptions : Type.
Variable Remote : Type.
Variable answer : ssh.Call -> Remote -> result string * Remote.
Variable makeDockerOptionsDir : External SwarmOptions Remote.
Variable ConfigureAuth : External SwarmOptions Remote.
Variable configureSwarm : SwarmOptions -> auth.AuthOptions -> External SwarmOptions Remote.
Variable setRemoteAuthOptions : RedHatProvisioner SwarmOptions -> auth.AuthOptions.
Variable retries : nat.

Local Notation "'State'" := (State SwarmOptions Remote).
Local Notation "'RedHatProvisioner'" := (RedHatProvisioner SwarmOptions).

(** *** The command channel *)

(** A call of [SSHCommand] adds itself to the history and leaves the
    provisioner as it is. *)
Lemma SSHCommand_effect (args : string) (st : State) :
  exists r rem,
    SSHCommand answer args st =
    (r, {| prov := prov st; remote := rem;
           history := (history st ++ [{| issuer := prov st; command := args |}])%list |}).
Proof.
  unfold SSHCommand, drivers.GetSSHClientFromDriver, record; simpl.
  destruct (drivers.SSHClient (Driver (prov st))) as [[base| |]|e]; simpl;
    unfold send; simpl;
    try (match goal with |- context [answer ?c ?r] => destruct (answer c r) as [r' rem'] end);
    eauto.
Qed.

Lemma added_app A (m : State -> A * State) (st : State) (h : list (Issued SwarmOptions)) :
  history (snd (m st)) = (history st ++ h)%list -> added m st = h.
Proof.
  intros H. unfold added. rewrite H.
  rewrite skipn_app, skipn_all, Nat.sub_diag. reflexivity.
Qed.

(** The commands of [Service]: the reload first where the action asks for
    it, then, unless the reload failed, the control command with the verb of
    the action. *)
Lemma Service_commands (name : string) (action : serviceaction.ServiceAction) (st : State) :
  let reload := drivers.SSHSudo (Driver (prov st)) "systemctl daemon-reload" in
  let control :=
    Sprintf (drivers.SSHSudo (Driver (prov st)) "systemctl %s %s")
            [serviceaction.String action; name] in
  issuedBy (Service answer name action) st =
  if reloadDaemon action
  then reload :: (if is_ok (fst (SSHCommand answer reload st)) then [control] else [])
  else [control].
Proof.
  intros reload control.
  unfold issuedBy, added, Service, bind, provisioner, ret.
  destruct (reloadDaemon action); cbn beta iota; fold reload.
  - destruct (SSHCommand_effect reload st) as (r & rem & E). rewrite E.
    destruct r as [out|e]; cbn [fst snd is_ok prov history].
    + fold control.
      match goal with
      | |- context [SSHCommand answer control ?s] =>
          destruct (SSHCommand_effect control s) as (r' & rem' & E'); rewrite E'
      end.
      destruct r'; cbn [snd history prov];
        rewrite <- app_assoc, skipn_app, skipn_all, Nat.sub_diag; reflexivity.
    + rewrite skipn_app, skipn_all, Nat.sub_diag. reflexivity.
  - fold control.
    destruct (SSHCommand_effect control st) as (r & rem & E). rewrite E.
    destruct r; cbn [snd history prov];
      rewrite skipn_app, skipn_all, Nat.sub_diag; reflexivity.
Qed.

(** *** Repository coordinates *)

(** C1. For the OS release identifier the provisioner reports: "rhel" and
    "centos" resolve to family "centos", version "7", "fedora" to family
    "fedora", version "22", and the repository file is rendered from that
    coordinate; any other identifier ends in [ErrUnknownYumOsRelease], with
    no coordinate and no file, whatever the template package does. *)
Theorem generateYumRepoList_coordinate (p : RedHatProvisioner) (info : OsRelease) :
  GetOsReleaseInfo p = Ok info ->
  (Id info = "rhel" \/ Id info = "centos" ->
     packageListInfo (Id info) = Ok {| OsRelease_ := "centos"; OsReleaseVersion := "7" |} /\
     generateYumRepoList goTemplate p =
       Ok (renderPackageList {| OsRelease_ := "centos"; OsReleaseVersion := "7" |})) /\
  (Id info = "fedora" ->
     packageListInfo (Id info) = Ok {| OsRelease_ := "fedora"; OsReleaseVersion := "22" |} /\
     generateYumRepoList goTemplate p =
       Ok (renderPackageList {| OsRelease_ := "fedora"; OsReleaseVersion := "22" |})) /\
  (Id info <> "rhel" -> Id info <> "centos" -> Id info <> "fedora" ->
     packageListInfo (Id info) = Err ErrUnknownYumOsRelease /\
     forall lib, generateYumRepoList lib p = Err ErrUnknownYumOsRelease).
Proof.
  intros Hinfo. unfold generateYumRepoList. rewrite Hinfo.
  repeat split.
  - destruct H as [H | H]; rewrite H; reflexivity.
  - destruct H as [H | H]; rewrite H; reflexivity.
  - rewrite H; reflexivity.
  - rewrite H; reflexivity.
  - unfold packageListInfo.
    apply String.eqb_neq in H, H0, H1. now rewrite H, H0, H1.
  - intros lib. unfold packageListInfo.
    apply String.eqb_neq in H, H0, H1. now rewrite H, H0, H1.
Qed.

(** *** Verbs *)

(** C4. Every package action and every service action has a verb, and the
    verb is not empty; [Package] formats the verb of its action into the one
    command it sends, and [Service] the verb of its action into its control
    command. *)
Theorem verbs_total_nonempty :
  (forall a : pkgaction.PackageAction,
      packageAction a <> "" /\
      forall name (st : State),
        issuedBy (Package answer name a) st =
        [Sprintf (drivers.SSHSudo (Driver (prov st)) "yum %s -y %s")
                 [packageAction a; name]]) /\
  (forall s : serviceaction.ServiceAction,
      serviceaction.String s <> "" /\
      forall name (st : State),
        let reload := drivers.SSHSudo (Driver (prov st)) "systemctl daemon-reload" in
        let control :=
          Sprintf (drivers.SSHSudo (Driver (prov st)) "systemctl %s %s")
                  [serviceaction.String s; name] in
        issuedBy (Service answer name s) st =
        if reloadDaemon s
        then reload :: (if is_ok (fst (SSHCommand answer reload st)) then [control] else [])
        else [control]).
Proof.
  split.
  - intros a. split; [destruct a; discriminate |].
    intros name st. unfold issuedBy, added, Package, bind, provisioner, ret.
    destruct (SSHCommand_effect
                (Sprintf (drivers.SSHSudo (Driver (prov st)) "yum %s -y %s")
                         [packageAction a; name]) st) as (r & rem & E).
    rewrite E. destruct r; cbn [snd history];
      rewrite skipn_app, skipn_all, Nat.sub_diag; reflexivity.
  - intros s. split; [destruct s; discriminate |].
    intros name st. apply Service_commands.
Qed.

(** *** The readiness probe *)

(** C8. The probe answers with a boolean and nothing else: true when its
    one [SSHCommand] succeeds, false when it fails, whatever the failure;
    it sends that one command and leaves the provisioner as it is.  A false
    answer makes [WaitFor] ask again while tries are left: the run goes on. *)
Theorem dockerDaemonResponding_total (st : State) :
  let cmd := drivers.SSHSudo (Driver (prov st)) "docker version" in
  let probe := dockerDaemonResponding answer in
  fst (probe st) = is_ok (fst (SSHCommand answer cmd st)) /\
  snd (probe st) = snd (SSHCommand answer cmd st) /\
  prov (snd (probe st)) = prov st /\
  issuedBy probe st = [cmd] /\
  forall n, WaitFor (S n) probe st =
            if fst (probe st) then (Ok tt, snd (probe st))
            else WaitFor n probe (snd (probe st)).
Proof.
  intros cmd probe. unfold probe, issuedBy, added, dockerDaemonResponding. fold cmd.
  destruct (SSHCommand_effect cmd st) as (r & rem & E). rewrite E.
  destruct r; cbn [fst snd is_ok prov history];
    rewrite skipn_app, skipn_all, Nat.sub_diag; repeat split;
    intros n; unfold WaitFor; cbn [WaitFor_from];
    unfold dockerDaemonResponding; fold cmd; rewrite E; reflexivity.
Qed.

(** *** Calls that leave the provisioner alone *)

Local Notation "'keeps'" := (@keeps SwarmOptions Remote _).

Lemma keeps_ret A (a : A) : keeps (ret (Remote := Remote) (SwarmOptions := SwarmOptions) a).
Proof. intros st; simpl; split; [reflexivity | exists []; now rewrite app_nil_r]. Qed.

Lemma keeps_lift A (r : result A) : keeps (lift (Remote := Remote) (SwarmOptions := SwarmOptions) r).
Proof. intros st; simpl; split; [reflexivity | exists []; now rewrite app_nil_r]. Qed.

Lemma keeps_provisioner : keeps (provisioner (Remote := Remote) (SwarmOptions := SwarmOptions)).
Proof. intros st; simpl; split; [reflexivity | exists []; now rewrite app_nil_r]. Qed.

Lemma keeps_SSHCommand args : keeps (SSHCommand answer args).
Proof.
  intros st. destruct (SSHCommand_effect args st) as (r & rem & E). rewrite E; simpl.
  split; [reflexivity |]. eexists; split; [reflexivity |]. now constructor.
Qed.

Lemma keeps_bind A B (m : M SwarmOptions Remote A) (k : A -> M SwarmOptions Remote B) :
  keeps m -> (forall a, keeps (k a)) -> keeps (bind m k).
Proof.
  intros Hm Hk st. unfold bind.
  destruct (Hm st) as (Hp & h & Hh & Hf).
  destruct (m st) as [[a|e] st1]; simpl in *.
  - destruct (Hk a st1) as (Hp' & h' & Hh' & Hf').
    split; [congruence |].
    exists (h ++ h')%list. split.
    + rewrite Hh', Hh. now rewrite app_assoc.
    + apply Forall_app; split; [assumption |].
      rewrite Hp in Hf'. exact Hf'.
  - split; [assumption |]. now exists h.
Qed.

Lemma keeps_forEach A (xs : list A) (body : A -> M SwarmOptions Remote unit) :
  (forall x, keeps (body x)) -> keeps (forEach xs body).
Proof.
  intros Hb. induction xs as [|x xs IH]; simpl.
  - apply keeps_ret.
  - apply keeps_bind; [apply Hb | intros _; exact IH].
Qed.

Lemma keeps_dockerDaemonResponding : keeps (dockerDaemonResponding answer).
Proof.
  intros st. unfold dockerDaemonResponding.
  destruct (keeps_SSHCommand (drivers.SSHSudo (Driver (prov st)) "docker version") st)
    as (Hp & h & Hh & Hf).
  destruct (SSHCommand answer _ st) as [[out|e] st1]; simpl in *; eauto.
Qed.

Lemma keeps_WaitFor_from n (probe : State -> bool * State) :
  keeps probe -> keeps (WaitFor_from n probe).
Proof.
  intros Hprobe. induction n as [|n IH]; intros st; simpl;
    destruct (Hprobe st) as (Hp & h & Hh & Hf);
    destruct (probe st) as [[|] st1]; simpl in *; eauto.
  destruct (IH st1) as (Hp' & h' & Hh' & Hf').
  split; [congruence |].
  exists (h ++ h')%list. split.
  - rewrite Hh', Hh. now rewrite app_assoc.
  - apply Forall_app; split; [assumption |]. rewrite Hp in Hf'. exact Hf'.
Qed.

Ltac keeps_tac :=
  repeat first
    [ apply keeps_bind; [| intros ?]
    | apply keeps_provisioner
    | apply keeps_SSHCommand
    | apply keeps_ret
    | apply keeps_lift
    | apply keeps_forEach; intros ? ].

Lemma keeps_SetHostname hostname : keeps (SetHostname answer hostname).
Proof. unfold SetHostname. keeps_tac. Qed.

Lemma keeps_Package name action : keeps (Package answer name action).
Proof. unfold Package. keeps_tac. Qed.

Lemma keeps_Service name action : keeps (Service answer name action).
Proof. unfold Service. destruct (reloadDaemon action); keeps_tac. Qed.

Lemma keeps_installDocker lib : keeps (installDocker answer lib).
Proof.
  unfold installDocker, installOfficialDocker, ConfigurePackageList.
  repeat first [ apply keeps_Service | apply keeps_bind; [| intros ?] | keeps_tac ].
Qed.

(** *** Formatting under an escalation prefix *)

Lemma Sprintf_percentFree (pre format : string) (args : list string) :
  percentFree pre = true -> Sprintf (pre ++ format) args = pre ++ Sprintf format args.
Proof.
  unfold percentFree, chars. induction pre as [|c pre IH]; intros H; [reflexivity |].
  cbn [list_ascii_of_string existsb] in H.
  apply negb_true_iff, orb_false_iff in H. destruct H as [Hc Hpre].
  rewrite Ascii.eqb_sym in Hc.
  cbn [append Sprintf]. rewrite Hc. f_equal.
  apply IH. now rewrite Hpre.
Qed.

Lemma systemctl_command (d : drivers.Driver) (prefix verb name : string) :
  escalatesWith d prefix ->
  Sprintf (drivers.SSHSudo d "systemctl %s %s") [verb; name] =
  prefix ++ "systemctl " ++ verb ++ " " ++ name.
Proof.
  intros [Hfree Hsudo]. rewrite Hsudo, Sprintf_percentFree by assumption.
  simpl. unfold format_verb; simpl. now rewrite append_empty_r.
Qed.

(** *** Service control *)

(** C5. Under a driver that escalates with a prefix: [Service] with Start
    or Restart sends the daemon-reload command first and, once that is
    through, the systemctl control command right after it, and nothing
    else; with Stop, Enable or Disable it sends the control command alone.
    The control command is never the daemon-reload command. *)
Theorem Service_daemon_reload (name prefix : string) (action : serviceaction.ServiceAction)
    (st : State) :
  escalatesWith (Driver (prov st)) prefix ->
  let reload := prefix ++ "systemctl daemon-reload" in
  let control := prefix ++ "systemctl " ++ serviceaction.String action ++ " " ++ name in
  control <> reload /\
  issuedBy (Service answer name action) st =
    match action with
    | serviceaction.Start | serviceaction.Restart =>
        if is_ok (fst (SSHCommand answer reload st)) then [reload; control] else [reload]
    | _ => [control]
    end /\
  count_occ string_dec (issuedBy (Service answer name action) st) reload =
    match action with
    | serviceaction.Start | serviceaction.Restart => 1
    | _ => 0
    end.
Proof.
  intros Hd reload control.
  assert (Hneq : control <> reload).
  { unfold control, reload. intros H. apply append_inv_head in H.
    destruct action; discriminate H. }
  assert (Hissued :
    issuedBy (Service answer name action) st =
    match action with
    | serviceaction.Start | serviceaction.Restart =>
        if is_ok (fst (SSHCommand answer reload st)) then [reload; control] else [reload]
    | _ => [control]
    end).
  { rewrite Service_commands, (systemctl_command _ _ Hd).
    destruct Hd as [_ Hsudo]. rewrite Hsudo. fold reload control.
    destruct action; cbn [reloadDaemon]; try reflexivity;
      destruct (is_ok (fst (SSHCommand answer reload st))); reflexivity. }
  split; [exact Hneq |]. split; [exact Hissued |].
  rewrite Hissued.
  destruct action; simpl;
    try destruct (is_ok (fst (SSHCommand answer reload st))); simpl;
    repeat (destruct (string_dec _ _); try congruence; simpl); reflexivity.
Qed.

(** *** The bootstrap sequence *)

Variable lib : TemplateLib.

Local Notation "'provision'" :=
  (Provision answer makeDockerOptionsDir ConfigureAuth configureSwarm
             setRemoteAuthOptions lib retries).
Local Notation "'thePlan'" :=
  (provisionPlan answer makeDockerOptionsDir ConfigureAuth configureSwarm
                 setRemoteAuthOptions lib retries).

Lemma Provision_orchestrate swarmOptions authOptions engineOptions (st : State) :
  provision swarmOptions authOptions engineOptions st =
  (surfaced (orchestrate (thePlan swarmOptions)
               (provisionInit swarmOptions authOptions engineOptions st)),
   final (orchestrate (thePlan swarmOptions)
               (provisionInit swarmOptions authOptions engineOptions st))).
Proof.
  unfold Provision, provisionInit, provisionPlan, surfaced.
  cbn [orchestrate]. unfold bind, assign, provisioner, ret.
  cbv beta iota delta
    [setEngineOptions setAuthOptions setSwarmOptions engine.withStorageDriver
     prov remote history DockerOptionsDir DaemonOptionsFile OsReleaseId Packages
     Driver AuthOptions EngineOptions SwarmOptions_ OsReleaseInfo
     engine.StorageDriver engine.Labels engine.InsecureRegistry
     engine.RegistryMirror engine.ArbitraryFlags engine.Env].
  destruct (String.eqb _ "");
    repeat match goal with
           | |- context [match ?f ?x with pair _ _ => _ end] =>
               destruct (f x) as [[?|?] ?];
               cbn [prov remote history completed failure final fst snd]
           end; reflexivity.
Qed.


(** How a run of any plan ends: either every transition was made, in the
    order of the plan, or the run stands where the first failing transition
    left it. *)
Lemma orchestrate_outcome (plan : list (Phase * M SwarmOptions Remote unit)) (st : State) :
  match failure (orchestrate plan st) with
  | None =>
      completed (orchestrate plan st) = map fst plan /\
      succeed plan st = Some (final (orchestrate plan st))
  | Some (ph, e) =>
      exists before transition after st_k,
        plan = (before ++ (ph, transition) :: after)%list /\
        completed (orchestrate plan st) = map fst before /\
        succeed before st = Some st_k /\
        transition st_k = (Err e, final (orchestrate plan st))
  end.
Proof.
  revert st. induction plan as [|[ph t] plan IH]; intros st; simpl.
  - split; reflexivity.
  - destruct (t st) as [[[]|e] st1] eqn:Et; simpl.
    + specialize (IH st1). destruct (failure (orchestrate plan st1)) as [[ph' e']|].
      * destruct IH as (before & t' & after & st_k & Hplan & Hdone & Hsucc & Hfail).
        exists ((ph, t) :: before)%list, t', after, st_k.
        simpl. rewrite Et. subst plan. rewrite Hdone. auto.
      * destruct IH as [Hdone Hsucc]. rewrite Hdone. auto.
    + exists [], t, plan, st. auto.
Qed.

(** C2 (amended). [Provision] is the linear state machine over the eight
    transitions in their fixed order: set-hostname, base packages, OS
    update, repository and engine install, readiness poll, options
    directory, auth, swarm.  A run in which no transition fails makes all of
    them, in that order.  Otherwise the transitions before the first failing
    one were made, in order, the error of the failing one is returned as it
    is, and the run ends in the very state that transition left: nothing
    more is sent, no later transition, no rollback. *)
Theorem Provision_sequence swarmOptions authOptions engineOptions (st : State) :
  let plan := thePlan swarmOptions in
  let st0 := provisionInit swarmOptions authOptions engineOptions st in
  let o := orchestrate plan st0 in
  map fst plan = phases /\
  provision swarmOptions authOptions engineOptions st = (surfaced o, final o) /\
  match failure o with
  | None =>
      surfaced o = Ok tt /\ completed o = phases /\ succeed plan st0 = Some (final o)
  | Some (ph, e) =>
      surfaced o = Err e /\
      exists before transition after st_k,
        plan = (before ++ (ph, transition) :: after)%list /\
        completed o = map fst before /\
        succeed before st0 = Some st_k /\
        transition st_k = (Err e, final o)
  end.
Proof.
  intros plan st0 o.
  split; [reflexivity |]. split; [apply Provision_orchestrate |].
  pose proof (orchestrate_outcome plan st0) as H. fold o in H.
  unfold surfaced. destruct (failure o) as [[ph e]|].
  - split; [reflexivity | exact H].
  - destruct H as [Hdone Hsucc]. repeat split; assumption.
Qed.

(** *** The storage driver *)

Lemma succeed_keeps (plan : list (Phase * M SwarmOptions Remote unit)) (st st' : State) :
  Forall (fun pt => keeps (snd pt)) plan ->
  succeed plan st = Some st' -> prov st' = prov st.
Proof.
  intros Hk. revert st. induction Hk as [|[ph t] plan Ht _ IH]; intros st; simpl.
  - now intros [= <-].
  - destruct (Ht st) as [Hp _]. cbn [snd] in Hp.
    destruct (t st) as [[[]|e] st1]; [| discriminate].
    intros H. apply IH in H. cbn [snd] in Hp. congruence.
Qed.

Lemma orchestrate_keeps (plan : list (Phase * M SwarmOptions Remote unit)) (st : State) :
  Forall (fun pt => keeps (snd pt)) plan ->
  prov (final (orchestrate plan st)) = prov st /\
  exists h, history (final (orchestrate plan st)) = (history st ++ h)%list /\
            Forall (fun i => issuer i = prov st) h.
Proof.
  intros Hk. revert st. induction Hk as [|[ph t] plan Ht _ IH]; intros st; simpl.
  - split; [reflexivity | exists []; now rewrite app_nil_r].
  - cbn [snd] in Ht. destruct (Ht st) as (Hp & h & Hh & Hf).
    destruct (t st) as [[[]|e] st1]; simpl in *; [| eauto].
    destruct (IH st1) as (Hp' & h' & Hh' & Hf').
    split; [congruence |].
    exists (h ++ h')%list. split.
    + rewrite Hh', Hh. now rewrite app_assoc.
    + apply Forall_app; split; [assumption |]. rewrite Hp in Hf'. exact Hf'.
Qed.

Lemma orchestrate_silent (plan : list (Phase * M SwarmOptions Remote unit)) (st : State) :
  Forall (fun pt => forall s, history (snd (snd pt s)) = history s) plan ->
  history (final (orchestrate plan st)) = history st.
Proof.
  intros Hs. revert st. induction Hs as [|[ph t] plan Ht _ IH]; intros st; simpl.
  - reflexivity.
  - specialize (Ht st). simpl in Ht.
    destruct (t st) as [[[]|e] st1]; simpl in *; [| assumption].
    rewrite IH. exact Ht.
Qed.

Lemma orchestrate_app (a b : list (Phase * M SwarmOptions Remote unit)) (st : State) :
  final (orchestrate (a ++ b) st) =
  match failure (orchestrate a st) with
  | None => final (orchestrate b (final (orchestrate a st)))
  | Some _ => final (orchestrate a st)
  end.
Proof.
  revert st. induction a as [|[ph t] a IH]; intros st; simpl; [reflexivity |].
  destruct (t st) as [[[]|e] st1]; simpl; [apply IH | reflexivity].
Qed.

Lemma call_silent (f : External SwarmOptions Remote) (s : State) :
  history (snd (call f s)) = history s.
Proof. unfold call. destruct (f (prov s) (remote s)) as [[e|] [p r]]; reflexivity. Qed.

Lemma provisionPlan_commands swarmOptions :
  Forall (fun pt => keeps (snd pt)) (firstn 5 (thePlan swarmOptions)).
Proof.
  simpl. repeat apply Forall_cons; try apply Forall_nil; cbn [snd].
  - apply keeps_bind; [apply keeps_provisioner | intros p; apply keeps_SetHostname].
  - apply keeps_bind; [apply keeps_provisioner |]. intros p.
    apply keeps_forEach. intros pkg. apply keeps_Package.
  - keeps_tac.
  - apply keeps_installDocker.
  - apply keeps_WaitFor_from, keeps_dockerDaemonResponding.
Qed.

Lemma provisionPlan_collaborators swarmOptions :
  Forall (fun pt => forall s, history (snd (snd pt s)) = history s)
         (skipn 5 (thePlan swarmOptions)).
Proof.
  simpl. repeat apply Forall_cons; try apply Forall_nil; cbn [snd]; intros s.
  - apply call_silent.
  - unfold bind, assign. cbn beta iota. now rewrite call_silent.
  - unfold bind, provisioner. cbn beta iota. now rewrite call_silent.
Qed.


Lemma provisionInit_storage_driver swarmOptions authOptions engineOptions (st : State) :
  engine.StorageDriver
    (EngineOptions (prov (provisionInit swarmOptions authOptions engineOptions st))) =
  (if String.eqb (engine.StorageDriver engineOptions) "" then "devicemapper"
   else engine.StorageDriver engineOptions).
Proof.
  unfold provisionInit.
  destruct (String.eqb (engine.StorageDriver engineOptions) ""); reflexivity.
Qed.

(** C3. Whatever the caller passes, from the first command of [Provision]
    on the provisioner's storage driver is "devicemapper" when the caller
    gave none, and the caller's otherwise: it is so in the state in which
    [installDocker] starts, and for the provisioner issuing each command
    that [Provision] sends, the engine install command among them. *)
Theorem Provision_storage_driver swarmOptions authOptions engineOptions (st : State) :
  let driver :=
    if String.eqb (engine.StorageDriver engineOptions) "" then "devicemapper"
    else engine.StorageDriver engineOptions in
  (forall st_k,
      succeed (firstn 3 (thePlan swarmOptions))
              (provisionInit swarmOptions authOptions engineOptions st) = Some st_k ->
      engine.StorageDriver (EngineOptions (prov st_k)) = driver) /\
  Forall (fun i => engine.StorageDriver (EngineOptions (issuer i)) = driver)
         (added (provision swarmOptions authOptions engineOptions) st).
Proof.
  intros driver.
  pose proof (provisionInit_storage_driver swarmOptions authOptions engineOptions st) as Hinit.
  fold driver in Hinit.
  pose proof (provisionPlan_commands swarmOptions) as Hcmds.
  split.
  - intros st_k Hk.
    apply succeed_keeps in Hk; [now rewrite Hk |].
    simpl in Hcmds |- *.
    repeat match goal with
           | H : Forall _ (_ :: _) |- _ => inversion_clear H
           end.
    repeat (apply Forall_cons; [assumption |]). apply Forall_nil.
  - set (st0 := provisionInit swarmOptions authOptions engineOptions st) in *.
    assert (Hhist : exists h,
               history (final (orchestrate (thePlan swarmOptions) st0)) =
               (history st0 ++ h)%list /\
               Forall (fun i => issuer i = prov st0) h).
    { rewrite <- (firstn_skipn 5 (thePlan swarmOptions)), orchestrate_app.
      destruct (orchestrate_keeps st0 Hcmds) as (_ & h & Hh & Hf).
      destruct (failure (orchestrate (firstn 5 (thePlan swarmOptions)) st0)).
      - now exists h.
      - exists h. split; [| assumption].
        rewrite orchestrate_silent by apply provisionPlan_collaborators.
        exact Hh. }
    destruct Hhist as (h & Hh & Hf).
    rewrite (@added_app _ (provision swarmOptions authOptions engineOptions) st h).
    + eapply Forall_impl; [| exact Hf]. intros i Hi. simpl in Hi. now rewrite Hi.
    + rewrite Provision_orchestrate. exact Hh.
Qed.


(** *** The engine configuration *)

Lemma GenerateDockerOptions_effect (l : TemplateLib) (dockerPort : Z) (st : State) :
  snd (GenerateDockerOptions l dockerPort st) =
    {| prov := setEngineOptions (prov st)
                 (EngineConfigContext.EngineOptions (contextOf dockerPort (prov st)));
       remote := remote st; history := history st |} /\
  fst (GenerateDockerOptions l dockerPort st) =
    match Parse l "engineConfig" engineConfigTemplate with
    | Err e => Err e
    | Ok t =>
        Ok {| DockerOptions.EngineOptions :=
                fst (Execute l t (EngineConfigData (contextOf dockerPort (prov st))));
              DockerOptions.EngineOptionsPath := DaemonOptionsFile (prov st) |}
    end.
Proof.
  unfold GenerateDockerOptions, bind, provisioner, assign, lift, ret, contextOf, providerLabel.
  cbn beta iota.
  change (Sprintf "provider=%s" [drivers.DriverName (Driver (prov st))])
    with ("provider=" ++ (drivers.DriverName (Driver (prov st)) ++ "")).
  rewrite append_empty_r.
  destruct (Parse l "engineConfig" engineConfigTemplate) as [t|e]; [| split; reflexivity].
  cbn [prov remote history]. 
  destruct (Execute l t _) as [engineCfg err]. split; reflexivity.
Qed.

Lemma times_GenerateDockerOptions (l : TemplateLib) (dockerPort : Z) (n : nat) (st : State) :
  Driver (prov (times n (GenerateDockerOptions l dockerPort) st)) = Driver (prov st) /\
  AuthOptions (prov (times n (GenerateDockerOptions l dockerPort) st)) = AuthOptions (prov st) /\
  DaemonOptionsFile (prov (times n (GenerateDockerOptions l dockerPort) st)) =
    DaemonOptionsFile (prov st) /\
  engine.Labels (EngineOptions (prov (times n (GenerateDockerOptions l dockerPort) st))) =
    (engine.Labels (EngineOptions (prov st)) ++ repeat (providerLabel (prov st)) n)%list.
Proof.
  revert st. induction n as [|n IH]; intros st; cbn [times repeat].
  - now rewrite app_nil_r.
  - destruct (GenerateDockerOptions_effect l dockerPort st) as [Hst _].
    destruct (IH (snd (GenerateDockerOptions l dockerPort st))) as (Hd & Ha & Hf & Hl).
    rewrite Hd, Ha, Hf, Hl, Hst. cbn.
    repeat split. unfold providerLabel. cbn. now rewrite <- app_assoc.
Qed.

(** C10. Each call of [GenerateDockerOptions] appends the label
    "provider=<driver name>" to the labels the provisioner stores, whatever
    the template package then does.  After [n] calls the stored labels are
    the ones before, followed by [n] copies of the provider label; and the
    text a further call renders has, after the flags of the earlier labels,
    the flag of the provider label [n + 1] times. *)
Theorem GenerateDockerOptions_appends_label (l : TemplateLib) (dockerPort : Z) (n : nat)
    (st : State) :
  let label := "provider=" ++ drivers.DriverName (Driver (prov st)) in
  let before := engine.Labels (EngineOptions (prov st)) in
  engine.Labels (EngineOptions (prov (times n (GenerateDockerOptions l dockerPort) st))) =
    (before ++ repeat label n)%list /\
  exists pre post,
    fst (GenerateDockerOptions goTemplate dockerPort
           (times n (GenerateDockerOptions goTemplate dockerPort) st)) =
    Ok {| DockerOptions.EngineOptions :=
            pre ++ range before (fun x => "--label " ++ x ++ " ") ++
            String.concat "" (repeat ("--label " ++ label ++ " ") (S n)) ++ post;
          DockerOptions.EngineOptionsPath := DaemonOptionsFile (prov st) |}.
Proof.
  intros label before.
  split; [apply times_GenerateDockerOptions |].
  destruct (times_GenerateDockerOptions goTemplate dockerPort n st) as (Hd & Ha & Hf & Hl).
  destruct (GenerateDockerOptions_effect goTemplate dockerPort
              (times n (GenerateDockerOptions goTemplate dockerPort) st)) as [_ Hr].
  rewrite Hr. cbn [Parse Execute goTemplate fst].
  change (String.eqb engineConfigTemplate packageListTemplate) with false.
  change (String.eqb engineConfigTemplate engineConfigTemplate) with true.
  cbn beta iota. rewrite Hf.
  unfold renderEngineConfig, execStartLine, contextOf.
  cbn [EngineConfigContext.EngineOptions EngineConfigContext.AuthOptions
       EngineConfigContext.DockerPort engine.withLabels engine.Labels
       engine.StorageDriver engine.InsecureRegistry engine.RegistryMirror
       engine.ArbitraryFlags].
  unfold providerLabel. rewrite Hl, Hd. fold label before.
  rewrite <- app_assoc, range_app.
  change (repeat (providerLabel (prov st)) n ++ [label])%list
    with (repeat label n ++ [label])%list.
  rewrite <- repeat_cons.
  change (label :: repeat label n)%list with (repeat label (S n)).
  rewrite range_repeat.
  cbn [fst]. rewrite !append_assoc.
  match goal with
  | |- exists pre post, Ok {| DockerOptions.EngineOptions := ?text;
                              DockerOptions.EngineOptionsPath := _ |} = _ =>
      assert (H : exists pre post,
                 text = pre ++ range before (fun x => "--label " ++ x ++ " ") ++
                        String.concat "" (repeat ("--label " ++ label ++ " ") (S n)) ++ post)
  end.
  { repeat first [ apply found_here | apply found_later ]. }
  destruct H as (pre & post & H). exists pre, post. now rewrite H.
Qed.







(** *** The host name *)




End Properties.

(** ** Runs on the test doubles *)

Example Provision_fresh_host :
  let st := snd (double.Provision tt double.noAuth (double.options "" [] [] [])
                   (double.start double.host [])) in
  commands st =
  [hosts.setCommand "sudo " "box"; hosts.script "sudo " "box";
   "sudo yum install -y curl"; "sudo yum -y update";
   "sudo sh -c 'echo " ++
     Quote (renderPackageList {| OsRelease_ := "centos"; OsReleaseVersion := "7" |}) ++
     " | sudo tee /etc/yum.repos.d/docker.repo'";
   "sudo yum install -y docker-engine"; "sudo systemctl daemon-reload";
   "sudo systemctl restart docker"; "sudo systemctl enable docker";
   "sudo docker version"] /\
  map (fun i => engine.StorageDriver (EngineOptions (issuer i))) (history st) =
    repeat "devicemapper" 10 /\
  engine.StorageDriver (EngineOptions (prov st)) = "devicemapper".
Proof. repeat split; reflexivity. Qed.

Example Provision_probe_retries :
  let e := Err (ErrOther "exit status 1") in
  let answers := [Ok ""; Ok ""; Ok ""; Ok ""; Ok ""; Ok ""; Ok ""; Ok ""; Ok ""; e; e] in
  let run := double.Provision tt double.noAuth (double.options "" [] [] [])
               (double.start double.host answers) in
  fst run = Ok tt /\
  skipn 9 (commands (snd run)) =
    ["sudo docker version"; "sudo docker version"; "sudo docker version"].
Proof. split; reflexivity. Qed.

Example Provision_aborts :
  let e : result string := Err (ErrOther "exit status 1") in
  let run := double.Provision tt double.noAuth (double.options "" [] [] [])
               (double.start double.host [Ok ""; Ok ""; e]) in
  fst run = Err (ErrOther "exit status 1") /\
  commands (snd run) =
    [hosts.setCommand "sudo " "box"; hosts.script "sudo " "box"; "sudo yum install -y curl"].
Proof. split; reflexivity. Qed.

Example GenerateDockerOptions_twice :
  engine.Labels (EngineOptions (prov
    (times 2 (GenerateDockerOptions (Remote := double.Remote) goTemplate 2376)
       (double.start double.host [])))) =
  ["provider=virtualbox"; "provider=virtualbox"].
Proof. reflexivity. Qed.

Example hosts_update_fresh :
  hosts.update "box" ["127.0.0.1 localhost"] = ["127.0.0.1 localhost"; "127.0.1.1 box"].
Proof. reflexivity. Qed.

Example hosts_update_again :
  hosts.update "box" ["127.0.0.1 localhost"; "127.0.1.1 old"] =
  ["127.0.0.1 localhost"; "127.0.1.1 box"].
Proof. reflexivity. Qed.

(** ** Instances

    The theorems above that carry hypotheses, at a host on the test
    doubles. *)

(** A CentOS host resolves to the centos/7 repository. *)
Lemma generateYumRepoList_coordinate_witness :
  GetOsReleaseInfo double.host = Ok {| Id := "centos"; Version := "7" |} /\
  generateYumRepoList goTemplate double.host =
    Ok (renderPackageList {| OsRelease_ := "centos"; OsReleaseVersion := "7" |}).
Proof.
  split; [reflexivity |].
  exact (proj2 (proj1 (@generateYumRepoList_coordinate double.SwarmOptions double.host
                         {| Id := "centos"; Version := "7" |} eq_refl)
                      (or_intror eq_refl))).
Defined.

(** With no storage driver given, [installDocker] starts on devicemapper. *)
Lemma Provision_storage_driver_witness :
  exists st_k,
    succeed (firstn 3 (double.provisionPlan tt))
            (provisionInit tt double.noAuth (double.options "" [] [] [])
                           (double.start double.host [])) = Some st_k /\
    engine.StorageDriver (EngineOptions (prov st_k)) = "devicemapper".
Proof.
  eexists. split; [reflexivity |].
  exact (proj1 (@Provision_storage_driver double.SwarmOptions double.Remote double.answer
                  double.succeeds double.succeeds (fun _ _ => double.succeeds)
                  double.keepAuth 2 goTemplate tt double.noAuth
                  (double.options "" [] [] []) (double.start double.host []))
               _ eq_refl).
Defined.

(** Restarting docker reloads the daemon first. *)
Lemma Service_daemon_reload_witness :
  escalatesWith (Driver double.host) "sudo " /\
  issuedBy (Service double.answer "docker" serviceaction.Restart)
           (double.start double.host []) =
    ["sudo systemctl daemon-reload"; "sudo systemctl restart docker"].
Proof.
  assert (H : escalatesWith (Driver double.host) "sudo ")
    by (split; [reflexivity | intros c; reflexivity]).
  split; [exact H |].
  exact (proj1 (proj2 (@Service_daemon_reload double.SwarmOptions double.Remote double.answer
                         "docker" "sudo " serviceaction.Restart
                         (double.start double.host []) H))).
Defined.



(** ** Where the design document says more than the code does *)

(** C2. Two runs that fail in different transitions return the same error:
    nothing in what [Provision] returns tells the failing step. *)
Lemma Provision_failing_step_not_identified :
  let e : result string := Err (ErrOther "exit status 1") in
  let st answers :=
    provisionInit tt double.noAuth (double.options "" [] [] [])
                  (double.start double.host answers) in
  let run answers :=
    double.Provision tt double.noAuth (double.options "" [] [] [])
                     (double.start double.host answers) in
  ~ exists identify : result unit -> option Phase,
      forall answers,
        identify (fst (run answers)) =
        option_map fst (failure (orchestrate (double.provisionPlan tt) (st answers))).
Proof.
  intros e st run [identify H].
  pose proof (H [e]) as H1.
  pose proof (H [Ok ""; Ok ""; Ok ""; e]) as H2.
  vm_compute in H1, H2. congruence.
Qed.



(** * Further properties of redhat.go *)

Section Coverage.

Variable SwarmOptions : Type.
Variable Remote : Type.
Variable answer : ssh.Call -> Remote -> result string * Remote.
Variable makeDockerOptionsDir : External SwarmOptions Remote.
Variable ConfigureAuth : External SwarmOptions Remote.
Variable configureSwarm : SwarmOptions -> auth.AuthOptions -> External SwarmOptions Remote.
Variable setRemoteAuthOptions : RedHatProvisioner SwarmOptions -> auth.AuthOptions.
Variable retries : nat.
Variable lib : TemplateLib.

Local Notation "'State'" := (State SwarmOptions Remote).
Local Notation "'RedHatProvisioner'" := (RedHatProvisioner SwarmOptions).
Local Notation "'provision'" :=
  (Provision answer makeDockerOptionsDir ConfigureAuth configureSwarm
             setRemoteAuthOptions lib retries).
Local Notation "'thePlan'" :=
  (provisionPlan answer makeDockerOptionsDir ConfigureAuth configureSwarm
                 setRemoteAuthOptions lib retries).
Local Notation "'sent'" := (fun (p : RedHatProvisioner) (c : string) =>
                              {| issuer := p; command := c |}).

(** *** Scripts *)

Lemma sendAll_effect (cmds : list string) (st : State) :
  exists k rem,
    snd (sendAll answer cmds st) =
      {| prov := prov st; remote := rem;
         history := (history st ++ map (sent (prov st)) (firstn k cmds))%list |} /\
    k <= length cmds /\
    (fst (sendAll answer cmds st) = Ok tt -> k = length cmds) /\
    (forall e, fst (sendAll answer cmds st) = Err e -> 0 < k).
Proof.
  revert st. induction cmds as [|c cmds IH]; intros st.
  - exists 0, (remote st). cbn. rewrite app_nil_r. destruct st; cbn.
    repeat split; auto; discriminate.
  - cbn [sendAll]. unfold bind.
    destruct (SSHCommand_effect answer c st) as (r & rem & E). rewrite E.
    destruct r as [out|e].
    + destruct (IH {| prov := prov st; remote := rem;
                      history := (history st ++ [sent (prov st) c])%list |})
        as (k & rem' & Hst & Hk & Hok & Herr).
      exists (S k), rem'. rewrite Hst. cbn [prov history firstn map length].
      rewrite <- app_assoc. cbn [app].
      repeat split; auto; try lia.
    + exists 1, rem. cbn. repeat split; auto; try lia; discriminate.
Qed.

Lemma sendAll_prov (cmds : list string) (st : State) :
  prov (snd (sendAll answer cmds st)) = prov st.
Proof.
  destruct (sendAll_effect cmds st) as (k & rem & H & _). now rewrite H.
Qed.

Lemma sendAll_app (a b : list string) (st : State) :
  sendAll answer (a ++ b) st = bind (sendAll answer a) (fun _ => sendAll answer b) st.
Proof.
  revert st. induction a as [|c a IH]; intros st; cbn [app sendAll].
  - reflexivity.
  - unfold bind in *.
    destruct (SSHCommand answer c st) as [[out|e] st1]; [apply IH | reflexivity].
Qed.

Lemma scriptOf_ret (p : RedHatProvisioner) : scriptOf answer p (ret tt) [].
Proof. intros st _. reflexivity. Qed.

Lemma scriptOf_provisioner (p : RedHatProvisioner)
    (k : RedHatProvisioner -> M SwarmOptions Remote unit) (cmds : list string) :
  scriptOf answer p (k p) cmds -> scriptOf answer p (bind (provisioner (Remote := Remote)) k) cmds.
Proof. intros H st Hp. unfold bind, provisioner. rewrite Hp. now apply H. Qed.

Lemma scriptOf_cons (p : RedHatProvisioner) (c c' : string)
    (k : string -> M SwarmOptions Remote unit) (cmds : list string) :
  c' = c -> (forall out, scriptOf answer p (k out) cmds) ->
  scriptOf answer p (bind (SSHCommand answer c') k) (c :: cmds).
Proof.
  intros -> Hk st Hp. cbn [sendAll]. unfold bind.
  destruct (SSHCommand_effect answer c st) as (r & rem & E). rewrite E.
  destruct r as [out|e]; [| reflexivity].
  apply Hk. exact Hp.
Qed.

Lemma scriptOf_bind (p : RedHatProvisioner) (m : M SwarmOptions Remote unit)
    (k : unit -> M SwarmOptions Remote unit) (a b : list string) :
  scriptOf answer p m a -> scriptOf answer p (k tt) b ->
  scriptOf answer p (bind m k) (a ++ b).
Proof.
  intros Hm Hk st Hp. rewrite sendAll_app. unfold bind. rewrite (Hm st Hp).
  pose proof (sendAll_prov a st) as Hprov.
  destruct (sendAll answer a st) as [[[]|e] st1]; [| reflexivity].
  apply Hk. cbn in Hprov. congruence.
Qed.


(** *** The commands as a prefix driver sends them *)




Lemma repoCommand_format (d : drivers.Driver) (prefix repo : string) :
  escalatesWith d prefix ->
  Sprintf (drivers.SSHSudo d "sh -c 'echo %q | sudo tee /etc/yum.repos.d/docker.repo'")
          [repo] = repoCommand prefix repo.
Proof.
  intros [Hfree Hsudo]. rewrite Hsudo, Sprintf_percentFree by assumption.
  unfold repoCommand. f_equal.
Qed.

(** *** The methods as scripts *)



Lemma Service_script (p : RedHatProvisioner) (prefix name : string)
    (action : serviceaction.ServiceAction) :
  escalatesWith (Driver p) prefix ->
  scriptOf answer p (Service answer name action)
           ((if reloadDaemon action then [prefix ++ "systemctl daemon-reload"] else []) ++
            [prefix ++ "systemctl " ++ serviceaction.String action ++ " " ++ name]).
Proof.
  intros Hd. unfold Service.
  apply scriptOf_bind.
  - destruct (reloadDaemon action); [| apply scriptOf_ret].
    apply scriptOf_provisioner. apply scriptOf_cons; [apply (proj2 Hd) |].
    intros _. apply scriptOf_ret.
  - apply scriptOf_provisioner. apply scriptOf_cons; [now apply systemctl_command |].
    intros _. apply scriptOf_ret.
Qed.

Lemma ConfigurePackageList_script (p : RedHatProvisioner) (prefix repo : string) :
  escalatesWith (Driver p) prefix ->
  generateYumRepoList lib p = Ok repo ->
  scriptOf answer p (ConfigurePackageList answer lib) [repoCommand prefix repo].
Proof.
  intros Hd Hrepo. unfold ConfigurePackageList.
  apply scriptOf_provisioner.
  intros st Hp. unfold bind at 1. unfold lift. rewrite Hrepo.
  revert st Hp. apply scriptOf_cons; [now apply repoCommand_format |].
  intros _. apply scriptOf_ret.
Qed.

Lemma installDocker_script (p : RedHatProvisioner) (prefix repo : string) :
  escalatesWith (Driver p) prefix ->
  generateYumRepoList lib p = Ok repo ->
  scriptOf answer p (installDocker answer lib) (installCommands prefix repo).
Proof.
  intros Hd Hrepo. unfold installDocker, installOfficialDocker.
  pose (engine := prefix ++ "yum install -y docker-engine").
  pose (reload := prefix ++ "systemctl daemon-reload").
  pose (control := fun action =>
          prefix ++ "systemctl " ++ serviceaction.String action ++ " " ++ "docker").
  change (installCommands prefix repo)
    with (([repoCommand prefix repo] ++ [engine]) ++
          ((if reloadDaemon serviceaction.Restart then [reload] else []) ++
           [control serviceaction.Restart]) ++
          ((if reloadDaemon serviceaction.Enable then [reload] else []) ++
           [control serviceaction.Enable]) ++ [])%list.
  apply scriptOf_bind.
  - apply scriptOf_bind; [now apply ConfigurePackageList_script |].
    apply scriptOf_provisioner. apply scriptOf_cons; [apply (proj2 Hd) |].
    intros _. apply scriptOf_ret.
  - apply scriptOf_bind; [now apply Service_script |].
    apply scriptOf_bind; [now apply Service_script | apply scriptOf_ret].
Qed.

(** *** Plans *)

Lemma runPlan_cons (ph : Phase) (t : M SwarmOptions Remote unit)
    (rest : list (Phase * M SwarmOptions Remote unit)) (st : State) :
  runPlan ((ph, t) :: rest) st = bind t (fun _ => runPlan rest) st.
Proof.
  unfold runPlan, bind, surfaced. cbn [orchestrate].
  destruct (t st) as [[[]|e] st1]; reflexivity.
Qed.

Lemma runPlan_app (a b : list (Phase * M SwarmOptions Remote unit)) (st : State) :
  runPlan (a ++ b) st = bind (runPlan a) (fun _ => runPlan b) st.
Proof.
  revert st. induction a as [|[ph t] a IH]; intros st.
  - reflexivity.
  - cbn [app]. unfold bind in *. rewrite !runPlan_cons. unfold bind.
    destruct (t st) as [[[]|e] st1]; [apply IH | reflexivity].
Qed.

Lemma runPlan_succeed (a : list (Phase * M SwarmOptions Remote unit)) (st st' : State) :
  succeed a st = Some st' -> runPlan a st = (Ok tt, st').
Proof.
  revert st. induction a as [|[ph t] a IH]; intros st.
  - cbn. now intros [= ->].
  - cbn [succeed]. rewrite runPlan_cons. unfold bind.
    destruct (t st) as [[[]|e] st1]; [apply IH | discriminate].
Qed.

Lemma succeed_runPlan (a : list (Phase * M SwarmOptions Remote unit)) (st st' : State) :
  runPlan a st = (Ok tt, st') -> succeed a st = Some st'.
Proof.
  revert st. induction a as [|[ph t] a IH]; intros st.
  - unfold runPlan. cbn. now intros [= ->].
  - rewrite runPlan_cons. unfold bind. cbn [succeed].
    destruct (t st) as [[[]|e] st1]; [apply IH | discriminate].
Qed.

Lemma Provision_runPlan swarmOptions authOptions engineOptions (st : State) :
  provision swarmOptions authOptions engineOptions st =
  runPlan (thePlan swarmOptions) (provisionInit swarmOptions authOptions engineOptions st).
Proof. apply Provision_orchestrate. Qed.



(** *** The repository list *)

(** X1. [generateYumRepoList] returns a text only when every stage is
    through, and then the text that [Execute] wrote in full; the error of
    the first stage to fail is returned as it is: that of
    [GetOsReleaseInfo], the unknown OS release, that of [Parse], that of
    [Execute].  It never returns a text that [Execute] left unfinished. *)
Theorem generateYumRepoList_outcome (p : RedHatProvisioner) :
  match generateYumRepoList lib p with
  | Ok buf =>
      exists info coordinate t,
        GetOsReleaseInfo p = Ok info /\
        packageListInfo (Id info) = Ok coordinate /\
        Parse lib "packageList" packageListTemplate = Ok t /\
        Execute lib t (PackageListData coordinate) = (buf, None)
  | Err e =>
      GetOsReleaseInfo p = Err e \/
      (exists info,
          GetOsReleaseInfo p = Ok info /\
          packageListInfo (Id info) = Err e /\ e = ErrUnknownYumOsRelease) \/
      (exists info coordinate,
          GetOsReleaseInfo p = Ok info /\
          packageListInfo (Id info) = Ok coordinate /\
          Parse lib "packageList" packageListTemplate = Err e) \/
      (exists info coordinate t partial,
          GetOsReleaseInfo p = Ok info /\
          packageListInfo (Id info) = Ok coordinate /\
          Parse lib "packageList" packageListTemplate = Ok t /\
          Execute lib t (PackageListData coordinate) = (partial, Some e))
  end.
Proof.
  unfold generateYumRepoList.
  destruct (GetOsReleaseInfo p) as [info|e]; [| now left].
  destruct (packageListInfo (Id info)) as [coordinate|e] eqn:Hc.
  - destruct (Parse lib "packageList" packageListTemplate) as [t|e] eqn:Hp.
    + destruct (Execute lib t (PackageListData coordinate)) as [buf [e|]] eqn:He.
      * right; right; right. now exists info, coordinate, t, buf.
      * now exists info, coordinate, t.
    + right; right; left. now exists info, coordinate.
  - right; left. exists info. repeat split; [exact Hc |].
    unfold packageListInfo in Hc.
    destruct (String.eqb (Id info) "rhel" || String.eqb (Id info) "centos");
      [discriminate |].
    destruct (String.eqb (Id info) "fedora"); [discriminate | congruence].
Qed.

(** X2. For a driver that escalates with a prefix free of line feeds and a
    repository text that was generated, [ConfigurePackageList] is the one
    command [echo <text> | sudo tee /etc/yum.repos.d/docker.repo], the text
    written as a Go string literal: the command has no line feed in it,
    whatever the text. *)
Theorem ConfigurePackageList_one_line (prefix repo : string) (st : State) :
  escalatesWith (Driver (prov st)) prefix ->
  has_newline prefix = false ->
  generateYumRepoList lib (prov st) = Ok repo ->
  ConfigurePackageList answer lib st = sendAll answer [repoCommand prefix repo] st /\
  issuedBy (ConfigurePackageList answer lib) st = [repoCommand prefix repo] /\
  has_newline (repoCommand prefix repo) = false.
Proof.
  intros Hd Hnl Hrepo.
  assert (E : ConfigurePackageList answer lib st = sendAll answer [repoCommand prefix repo] st)
    by now apply (@ConfigurePackageList_script (prov st) prefix repo).
  split; [exact E |]. split.
  - unfold issuedBy, added. rewrite E. cbn [sendAll]. unfold bind, ret.
    destruct (SSHCommand_effect answer (repoCommand prefix repo) st) as (r & rem & Er).
    rewrite Er. destruct r; cbn [snd history];
      rewrite skipn_app, skipn_all, Nat.sub_diag; reflexivity.
  - unfold repoCommand. now rewrite !has_newline_append, Hnl, has_newline_Quote.
Qed.

(** *** Installing the engine *)

Lemma installDocker_early (e : error) (st : State) :
  generateYumRepoList lib (prov st) = Err e ->
  ConfigurePackageList answer lib st = (Err e, st) /\
  installOfficialDocker answer lib st = (Err e, st) /\
  installDocker answer lib st = (Err e, st).
Proof.
  intros H.
  assert (E : ConfigurePackageList answer lib st = (Err e, st)).
  { unfold ConfigurePackageList, bind, provisioner, lift. now rewrite H. }
  assert (Eo : installOfficialDocker answer lib st = (Err e, st)).
  { unfold installOfficialDocker, bind at 1. now rewrite E. }
  repeat split; try assumption.
  unfold installDocker, bind at 1. now rewrite Eo.
Qed.

(** X3. When the repository list cannot be generated, for an unknown OS
    release or any other reason, [ConfigurePackageList],
    [installOfficialDocker] and [installDocker] return that error and leave
    everything as it was: no command is sent, nothing is installed and no
    service is touched. *)
Theorem installDocker_without_repository (e : error) (st : State) :
  generateYumRepoList lib (prov st) = Err e ->
  ConfigurePackageList answer lib st = (Err e, st) /\
  installOfficialDocker answer lib st = (Err e, st) /\
  installDocker answer lib st = (Err e, st) /\
  issuedBy (installDocker answer lib) st = [].
Proof.
  intros H. destruct (installDocker_early st H) as (Hc & Ho & Hi).
  repeat split; try assumption.
  unfold issuedBy, added. rewrite Hi. cbn [snd]. now rewrite skipn_all.
Qed.

(** X4. For a driver that escalates with a prefix and a repository text
    that was generated, [installDocker] sends, in this order, the repository
    file, [yum install -y docker-engine], [systemctl daemon-reload],
    [systemctl restart docker] and [systemctl enable docker], up to the
    first that fails, whose error it returns; it succeeds only after all
    five, sends at least the first, and leaves the provisioner as it is. *)
Theorem installDocker_commands (prefix repo : string) (st : State) :
  escalatesWith (Driver (prov st)) prefix ->
  generateYumRepoList lib (prov st) = Ok repo ->
  installDocker answer lib st = sendAll answer (installCommands prefix repo) st /\
  prov (snd (installDocker answer lib st)) = prov st /\
  exists k,
    1 <= k <= 5 /\
    issuedBy (installDocker answer lib) st = firstn k (installCommands prefix repo) /\
    (fst (installDocker answer lib st) = Ok tt -> k = 5).
Proof.
  intros Hd Hrepo.
  assert (E : installDocker answer lib st = sendAll answer (installCommands prefix repo) st)
    by now apply (@installDocker_script (prov st) prefix repo).
  destruct (sendAll_effect (installCommands prefix repo) st)
    as (k & rem & Hst & Hk & Hok & Herr).
  split; [exact E |]. split; [rewrite E, Hst; reflexivity |].
  exists k. unfold issuedBy, added. rewrite E, Hst. cbn [history].
  rewrite skipn_app, skipn_all, Nat.sub_diag. cbn [app skipn].
  rewrite map_map. cbn [command]. rewrite map_id.
  repeat split; auto.
  destruct (fst (sendAll answer (installCommands prefix repo) st)) as [[]|e] eqn:R.
  - rewrite Hok by reflexivity. cbn. lia.
  - now apply (Herr e).
Qed.

(** *** Provisioning *)

Lemma succeed_app (a b : list (Phase * M SwarmOptions Remote unit)) (st : State) :
  succeed (a ++ b) st =
  match succeed a st with
  | Some st' => succeed b st'
  | None => None
  end.
Proof.
  revert st. induction a as [|[ph t] a IH]; intros st; cbn [app succeed]; [reflexivity |].
  destruct (t st) as [[[]|e] st1]; [apply IH | reflexivity].
Qed.

Lemma thePlan_keeps swarmOptions (n : nat) :
  n <= 5 -> Forall (fun pt => keeps (snd pt)) (firstn n (thePlan swarmOptions)).
Proof.
  intros Hn.
  pose proof (provisionPlan_commands answer makeDockerOptionsDir ConfigureAuth
                configureSwarm setRemoteAuthOptions retries lib swarmOptions) as H.
  rewrite <- (firstn_skipn n (firstn 5 (thePlan swarmOptions))) in H.
  apply Forall_app in H. destruct H as [H _].
  rewrite firstn_firstn, Nat.min_l in H by exact Hn. exact H.
Qed.

(** X5. On an OS release that the repository switch does not know,
    [Provision] never succeeds; and it finds out late: when the host name,
    the base packages and the OS update go through, it returns
    [ErrUnknownYumOsRelease] from the state those three left, with nothing
    sent after the update. *)
Theorem Provision_unknown_os swarmOptions authOptions engineOptions (info : OsRelease)
    (st : State) :
  GetOsReleaseInfo (prov st) = Ok info ->
  packageListInfo (Id info) = Err ErrUnknownYumOsRelease ->
  fst (provision swarmOptions authOptions engineOptions st) <> Ok tt /\
  forall st3,
    succeed (firstn 3 (thePlan swarmOptions))
            (provisionInit swarmOptions authOptions engineOptions st) = Some st3 ->
    provision swarmOptions authOptions engineOptions st = (Err ErrUnknownYumOsRelease, st3).
Proof.
  intros Hinfo Hunknown.
  set (st0 := provisionInit swarmOptions authOptions engineOptions st).
  assert (Hlate : forall st3,
             succeed (firstn 3 (thePlan swarmOptions)) st0 = Some st3 ->
             provision swarmOptions authOptions engineOptions st =
             (Err ErrUnknownYumOsRelease, st3)).
  { intros st3 H3.
    assert (Hp : prov st3 = prov st0)
      by (apply (succeed_keeps st0 (thePlan_keeps swarmOptions (n := 3) ltac:(lia)) H3)).
    assert (Hrepo : generateYumRepoList lib (prov st3) = Err ErrUnknownYumOsRelease).
    { rewrite Hp. unfold generateYumRepoList.
      change (GetOsReleaseInfo (prov st0)) with (GetOsReleaseInfo (prov st)).
      now rewrite Hinfo, Hunknown. }
    rewrite Provision_runPlan. fold st0.
    rewrite <- (firstn_skipn 3 (thePlan swarmOptions)), runPlan_app.
    unfold bind. rewrite (runPlan_succeed _ _ H3).
    cbn [skipn provisionPlan]. rewrite runPlan_cons. unfold bind.
    now rewrite (proj2 (proj2 (installDocker_early st3 Hrepo))). }
  split; [| exact Hlate].
  intros Hok.
  destruct (provision swarmOptions authOptions engineOptions st) as [r s] eqn:E.
  cbn in Hok. subst r.
  pose proof E as E'. rewrite Provision_runPlan in E'. fold st0 in E'.
  apply succeed_runPlan in E'.
  rewrite <- (firstn_skipn 3 (thePlan swarmOptions)), succeed_app in E'.
  destruct (succeed (firstn 3 (thePlan swarmOptions)) st0) as [st3|] eqn:H3;
    [| discriminate].
  pose proof (Hlate st3 eq_refl) as C. congruence.
Qed.

Lemma SSHCommand_without_client (e : error) (args : string) (st : State) :
  drivers.SSHClient (Driver (prov st)) = Err e ->
  SSHCommand answer args st =
  (Err e, {| prov := prov st; remote := remote st;
             history := (history st ++ [sent (prov st) args])%list |}).
Proof.
  intros H. unfold SSHCommand, drivers.GetSSHClientFromDriver, record.
  cbn [prov]. now rewrite H.
Qed.

(** X6. With a driver that has no SSH client to give, [SSHCommand] returns
    the driver's error and the remote end is not reached.  [Provision] then
    ends at its first command with that error: the options of the call are
    stored in the provisioner, the host name command is the only one
    recorded, and the remote end is as before. *)
Theorem Provision_without_client swarmOptions authOptions engineOptions (e : error)
    (st : State) :
  drivers.SSHClient (Driver (prov st)) = Err e ->
  (forall args, fst (SSHCommand answer args st) = Err e /\
                remote (snd (SSHCommand answer args st)) = remote st) /\
  let st0 := provisionInit swarmOptions authOptions engineOptions st in
  let name := drivers.GetMachineName (Driver (prov st)) in
  provision swarmOptions authOptions engineOptions st =
  (Err e,
   {| prov := prov st0; remote := remote st;
      history :=
        (history st ++
         [sent (prov st0)
               (Sprintf (drivers.SSHSudo (Driver (prov st))
                           "sh -c 'hostname %s && echo %q | tee /etc/hostname'")
                        [name; name])])%list |}).
Proof.
  intros H. split.
  - intros args. now rewrite (SSHCommand_without_client args st H).
  - intros st0 name. rewrite Provision_runPlan. fold st0.
    unfold provisionPlan. rewrite runPlan_cons.
    unfold bind at 1. unfold bind at 1. unfold provisioner at 1.
    unfold SetHostname. unfold bind at 1. unfold provisioner at 1.
    unfold bind at 1.
    rewrite (@SSHCommand_without_client e _ st0 H). reflexivity.
Qed.

(** X7. A run of [Provision] in which one of the five command phases fails
    returns an error and leaves the provisioner with the options of this
    call stored: the caller's swarm and auth options, the caller's engine
    options with the storage driver defaulted.  Nothing restores what the
    provisioner held before. *)
Theorem Provision_failure_keeps_options swarmOptions authOptions engineOptions (st : State) :
  succeed (firstn 5 (thePlan swarmOptions))
          (provisionInit swarmOptions authOptions engineOptions st) = None ->
  let after := prov (snd (provision swarmOptions authOptions engineOptions st)) in
  (exists e, fst (provision swarmOptions authOptions engineOptions st) = Err e) /\
  after = prov (provisionInit swarmOptions authOptions engineOptions st) /\
  SwarmOptions_ after = Some swarmOptions /\
  AuthOptions after = authOptions /\
  EngineOptions after =
    (if String.eqb (engine.StorageDriver engineOptions) ""
     then engine.withStorageDriver engineOptions "devicemapper" else engineOptions).
Proof.
  intros Hfail after.
  set (st0 := provisionInit swarmOptions authOptions engineOptions st) in *.
  assert (H : (exists e, fst (provision swarmOptions authOptions engineOptions st) = Err e) /\
              after = prov st0).
  { unfold after. rewrite Provision_runPlan. fold st0.
    rewrite <- (firstn_skipn 5 (thePlan swarmOptions)), runPlan_app.
    destruct (orchestrate_keeps st0 (thePlan_keeps swarmOptions (n := 5) ltac:(lia)))
      as [Hp _].
    unfold bind.
    destruct (runPlan (firstn 5 (thePlan swarmOptions)) st0) as [[[]|e] s] eqn:E.
    - apply succeed_runPlan in E. congruence.
    - assert (Es : final (orchestrate (firstn 5 (thePlan swarmOptions)) st0) = s)
        by (change (snd (runPlan (firstn 5 (thePlan swarmOptions)) st0) = s);
            now rewrite E).
      cbn [fst snd]. rewrite <- Es. split; [now exists e | exact Hp]. }
  destruct H as [He Ha]. split; [exact He |]. split; [exact Ha |].
  rewrite Ha. unfold st0, provisionInit. cbn. auto.
Qed.

(** *** The unit file *)

(** X9. [GenerateDockerOptions] works on the provisioner alone: it sends no
    command and leaves the remote end as it is.  It fails exactly when
    [Parse] fails, with the error of [Parse]; by then the provider label is
    already appended, so the provisioner is changed even by a call that
    returns an error.  Nothing but the labels changes, and the options it
    returns name the provisioner's [DaemonOptionsFile] as their path. *)
Theorem GenerateDockerOptions_frame (l : TemplateLib) (dockerPort : Z) (st : State) :
  let r := GenerateDockerOptions l dockerPort st in
  let label := "provider=" ++ drivers.DriverName (Driver (prov st)) in
  remote (snd r) = remote st /\
  history (snd r) = history st /\
  issuedBy (GenerateDockerOptions l dockerPort) st = [] /\
  prov (snd r) =
    setEngineOptions (prov st)
      (engine.withLabels (EngineOptions (prov st))
         (engine.Labels (EngineOptions (prov st)) ++ [label])%list) /\
  (forall e, fst r = Err e <-> Parse l "engineConfig" engineConfigTemplate = Err e) /\
  (forall o, fst r = Ok o ->
             DockerOptions.EngineOptionsPath o = DaemonOptionsFile (prov st)).
Proof.
  intros r label.
  destruct (GenerateDockerOptions_effect l dockerPort st) as [Hst Hr].
  fold r in Hst, Hr.
  split; [now rewrite Hst |]. split; [now rewrite Hst |].
  split; [unfold issuedBy, added; fold r; rewrite Hst; cbn [history];
          now rewrite skipn_all |].
  split; [now rewrite Hst |].
  rewrite Hr. destruct (Parse l "engineConfig" engineConfigTemplate) as [t|e'].
  - split; [intros e; split; discriminate |].
    intros o [= <-]. reflexivity.
  - split; [intros e; split; congruence | discriminate].
Qed.

(** *** The commands of a whole run *)




(** X12. [Provision] starts by overwriting the swarm, auth and engine
    options of the provisioner, so a run does not depend on the options
    stored before: from two states that differ in those options only, the
    same call returns the same result and leaves the same state. *)
Theorem Provision_forgets_old_options swarmOptions authOptions engineOptions
    (st st' : State) :
  remote st = remote st' ->
  history st = history st' ->
  DockerOptionsDir (prov st) = DockerOptionsDir (prov st') ->
  DaemonOptionsFile (prov st) = DaemonOptionsFile (prov st') ->
  OsReleaseId (prov st) = OsReleaseId (prov st') ->
  Packages (prov st) = Packages (prov st') ->
  Driver (prov st) = Driver (prov st') ->
  OsReleaseInfo (prov st) = OsReleaseInfo (prov st') ->
  provision swarmOptions authOptions engineOptions st =
  provision swarmOptions authOptions engineOptions st'.
Proof.
  intros Hr Hh H1 H2 H3 H4 H5 H6. rewrite !Provision_runPlan. f_equal.
  unfold provisionInit, setEngineOptions, setAuthOptions, setSwarmOptions.
  cbn [DockerOptionsDir DaemonOptionsFile OsReleaseId Packages Driver AuthOptions
       EngineOptions SwarmOptions_ OsReleaseInfo].
  now rewrite Hr, Hh, H1, H2, H3, H4, H5, H6.
Qed.

End Coverage.

(** *** What reaches the remote end *)

Section Tapped.

Variable SwarmOptions : Type.
Variable Remote : Type.
Variable answer : ssh.Call -> Remote -> result string * Remote.
Variable lib : TemplateLib.

Local Notation "'State'" := (State SwarmOptions (Remote * list ssh.Call)).
Local Notation "'calls'" := (fun st : State => snd (remote st)).
Local Notation "'sent'" := (fun (p : RedHatProvisioner SwarmOptions) (c : string) =>
                              {| issuer := p; command := c |}).





End Tapped.

(** *** The hosts script on any file *)


(** ** Instances of the further properties *)

(** The repository command of a CentOS host is one line. *)
Lemma ConfigurePackageList_one_line_witness :
  escalatesWith (Driver double.host) "sudo " /\
  has_newline "sudo " = false /\
  generateYumRepoList goTemplate double.host = Ok cases.centosRepo /\
  has_newline (repoCommand "sudo " cases.centosRepo) = false.
Proof.
  assert (H : escalatesWith (Driver double.host) "sudo ")
    by (split; [reflexivity | intros c; reflexivity]).
  split; [exact H |]. split; [reflexivity |]. split; [reflexivity |].
  exact (proj2 (proj2 (@ConfigurePackageList_one_line double.SwarmOptions double.Remote
                         double.answer goTemplate "sudo " cases.centosRepo
                         (double.start double.host []) H eq_refl eq_refl))).
Defined.

(** On the unknown host [installDocker] sends nothing. *)
Lemma installDocker_without_repository_witness :
  generateYumRepoList goTemplate cases.unknownHost = Err ErrUnknownYumOsRelease /\
  issuedBy (installDocker double.answer goTemplate) (double.start cases.unknownHost []) = [].
Proof.
  split; [reflexivity |].
  exact (proj2 (proj2 (proj2 (@installDocker_without_repository double.SwarmOptions
                                double.Remote double.answer goTemplate
                                ErrUnknownYumOsRelease
                                (double.start cases.unknownHost []) eq_refl)))).
Defined.

(** On the CentOS host [installDocker] is its five commands. *)
Lemma installDocker_commands_witness :
  escalatesWith (Driver double.host) "sudo " /\
  generateYumRepoList goTemplate double.host = Ok cases.centosRepo /\
  installDocker double.answer goTemplate (double.start double.host []) =
  sendAll double.answer (installCommands "sudo " cases.centosRepo)
          (double.start double.host []).
Proof.
  assert (H : escalatesWith (Driver double.host) "sudo ")
    by (split; [reflexivity | intros c; reflexivity]).
  split; [exact H |]. split; [reflexivity |].
  exact (proj1 (@installDocker_commands double.SwarmOptions double.Remote double.answer
                  goTemplate "sudo " cases.centosRepo (double.start double.host [])
                  H eq_refl)).
Defined.

(** The unknown host is renamed and updated before the run gives up. *)
Lemma Provision_unknown_os_witness :
  GetOsReleaseInfo cases.unknownHost = cases.solaris /\
  packageListInfo "solaris" = Err ErrUnknownYumOsRelease /\
  fst (double.Provision tt double.noAuth (double.options "" [] [] [])
         (double.start cases.unknownHost [])) <> Ok tt.
Proof.
  split; [reflexivity |]. split; [reflexivity |].
  exact (proj1 (@Provision_unknown_os double.SwarmOptions double.Remote double.answer
                  double.succeeds double.succeeds (fun _ _ => double.succeeds)
                  double.keepAuth 2 goTemplate tt double.noAuth
                  (double.options "" [] [] []) {| Id := "solaris"; Version := "11" |}
                  (double.start cases.unknownHost []) eq_refl eq_refl)).
Defined.

(** The offline host fails with the error of its driver. *)
Lemma Provision_without_client_witness :
  drivers.SSHClient (Driver cases.offlineHost) = Err (ErrOther "ssh: no client") /\
  fst (double.Provision tt double.noAuth (double.options "" [] [] [])
         (double.start cases.offlineHost [])) = Err (ErrOther "ssh: no client").
Proof.
  split; [reflexivity |].
  exact (f_equal fst
           (proj2 (@Provision_without_client double.SwarmOptions double.Remote
                     double.answer double.succeeds double.succeeds
                     (fun _ _ => double.succeeds) double.keepAuth 2 goTemplate tt
                     double.noAuth (double.options "" [] [] []) (ErrOther "ssh: no client")
                     (double.start cases.offlineHost []) eq_refl))).
Defined.

(** A run that fails at its second command leaves devicemapper stored. *)
Lemma Provision_failure_keeps_options_witness :
  let st := double.start double.host [Ok ""; Err (ErrOther "exit status 1")] in
  succeed (firstn 5 (double.provisionPlan tt))
          (provisionInit tt double.noAuth (double.options "" [] [] []) st) = None /\
  engine.StorageDriver
    (EngineOptions
       (prov (snd (double.Provision tt double.noAuth (double.options "" [] [] []) st)))) =
  "devicemapper".
Proof.
  intros st. split; [reflexivity |].
  exact (f_equal engine.StorageDriver
           (proj2 (proj2 (proj2 (proj2
              (@Provision_failure_keeps_options double.SwarmOptions double.Remote
                 double.answer double.succeeds double.succeeds
                 (fun _ _ => double.succeeds) double.keepAuth 2 goTemplate tt
                 double.noAuth (double.options "" [] [] []) st eq_refl)))))).
Defined.


(** A first call on the CentOS host returns the path of the unit file. *)
Lemma GenerateDockerOptions_frame_witness :
  exists o,
    fst (GenerateDockerOptions goTemplate 2376 (double.start double.host [])) = Ok o /\
    DockerOptions.EngineOptionsPath o = "/etc/systemd/system/docker.service".
Proof.
  eexists. split; [reflexivity |].
  exact (proj2 (proj2 (proj2 (proj2 (proj2
           (@GenerateDockerOptions_frame double.SwarmOptions double.Remote goTemplate 2376
              (double.start double.host [])))))) _ eq_refl).
Defined.



(** A host that was given overlay and a label before runs like a new one. *)
Lemma Provision_forgets_old_options_witness :
  double.Provision tt double.noAuth (double.options "" [] [] [])
                   (double.start cases.usedHost []) =
  double.Provision tt double.noAuth (double.options "" [] [] [])
                   (double.start double.host []).
Proof.
  exact (@Provision_forgets_old_options double.SwarmOptions double.Remote double.answer
           double.succeeds double.succeeds (fun _ _ => double.succeeds) double.keepAuth
           2 goTemplate tt double.noAuth (double.options "" [] [] [])
           (double.start cases.usedHost []) (double.start double.host [])
           eq_refl eq_refl eq_refl eq_refl eq_refl eq_refl eq_refl eq_refl).
Defined.
